(** * AgentNexus: the agno bridge script ([scripts/agno_bridge.py])

    A shallow embedding of the bridge: one JSON request in, one JSON
    response out, with a demo fallback when the [agno] library is missing.

    Python values are modelled as data, the module-level [agent] variable as
    explicit state, and Python exceptions as a result type threaded through
    a small state-and-exception monad.  What lies outside the script (the
    [agno] library, the JSON parser, the traceback formatter, the Unicode
    character database) is a parameter of the development. *)

From Stdlib Require Import ZArith NArith String Ascii Bool Lia DecimalString.
From Stdlib Require Import List.
Import ListNotations.

Set Warnings "-register-all".

(* ------------------------------------------------------------------ *)
(** ** Python strings *)

(** A Python [str] is a sequence of code points; slicing and
    concatenation act on code points, not on bytes. *)
Definition char := N.
Definition pystr := list char.

(** A source-code string literal (ASCII) as a Python string. *)
Definition lit (s : string) : pystr := map N_of_ascii (list_ascii_of_string s).

Definition pystr_eqb (a b : pystr) : bool :=
  if list_eq_dec N.eq_dec a b then true else false.

(** [sep.join(parts)] *)
Fixpoint join (sep : pystr) (parts : list pystr) : pystr :=
  match parts with
  | [] => []
  | [p] => p
  | p :: rest => p ++ sep ++ join sep rest
  end.

(** [str(n)] for an [int]. *)
Definition str_int (z : Z) : pystr := lit (NilZero.string_of_int (Z.to_int z)).

Definition hex_digit (n : N) : char :=
  (if n <? 10 then 48 + n else 87 + n)%N.

(** [n] in lowercase hexadecimal, zero-padded to [width] digits (the low
    [width] digits). *)
Fixpoint hex_fixed (width : nat) (n : N) : pystr :=
  match width with
  | O => []
  | S w => hex_fixed w (n / 16) ++ [hex_digit (n mod 16)]
  end.

Definition newline : char := 10%N.
Definition backslash : char := 92%N.
Definition squote : char := 39%N.
Definition dquote : char := 34%N.

(* ------------------------------------------------------------------ *)
(** ** Values *)

(** What [json.loads] produces.  A [float] is carried as its [repr] text:
    the bridge formats floats and passes them on, it never computes with
    them.  A [dict] keeps its insertion order. *)
Inductive json : Type :=
| JNone
| JBool (b : bool)
| JInt (z : Z)
| JFloat (r : pystr)
| JStr (s : pystr)
| JList (l : list json)
| JDict (d : list (pystr * json)).

(** Objects made by the [agno] library are opaque to the bridge. *)
Definition objref := N.

(** Values the bridge builds and hands out: JSON-like data that may hold
    library objects. *)
Inductive value : Type :=
| VNone
| VBool (b : bool)
| VInt (z : Z)
| VFloat (r : pystr)
| VStr (s : pystr)
| VList (l : list value)
| VDict (d : list (pystr * value))
| VObj (o : objref).

Fixpoint of_json (j : json) : value :=
  match j with
  | JNone => VNone
  | JBool b => VBool b
  | JInt z => VInt z
  | JFloat r => VFloat r
  | JStr s => VStr s
  | JList l => VList (map of_json l)
  | JDict d => VDict (map (fun '(k, v) => (k, of_json v)) d)
  end.

Fixpoint to_json (v : value) : option json :=
  match v with
  | VNone => Some JNone
  | VBool b => Some (JBool b)
  | VInt z => Some (JInt z)
  | VFloat r => Some (JFloat r)
  | VStr s => Some (JStr s)
  | VList l =>
      option_map JList
        ((fix go (l : list value) : option (list json) :=
            match l with
            | [] => Some []
            | x :: rest =>
                match to_json x, go rest with
                | Some j, Some js => Some (j :: js)
                | _, _ => None
                end
            end) l)
  | VDict d =>
      option_map JDict
        ((fix go (d : list (pystr * value)) : option (list (pystr * json)) :=
            match d with
            | [] => Some []
            | (k, x) :: rest =>
                match to_json x, go rest with
                | Some j, Some js => Some ((k, j) :: js)
                | _, _ => None
                end
            end) d)
  | VObj _ => None
  end.

(** [d[key]] lookup in a dict. *)
Fixpoint dict_lookup {A : Type} (key : pystr) (d : list (pystr * A)) : option A :=
  match d with
  | [] => None
  | (k, v) :: rest => if pystr_eqb k key then Some v else dict_lookup key rest
  end.

(** [type(v).__name__] *)
Definition type_name (j : json) : pystr :=
  match j with
  | JNone => lit "NoneType"
  | JBool _ => lit "bool"
  | JInt _ => lit "int"
  | JFloat _ => lit "float"
  | JStr _ => lit "str"
  | JList _ => lit "list"
  | JDict _ => lit "dict"
  end.

(** [v == 'literal'] against a string literal. *)
Definition eq_str (j : json) (s : string) : bool :=
  match j with
  | JStr t => pystr_eqb t (lit s)
  | _ => false
  end.

(* ------------------------------------------------------------------ *)
(** ** Exceptions *)

(** The classes the bridge or the interpreter tell apart; all derive from
    [Exception].  [OtherException] stands for whatever else derives from
    [Exception], for instance the errors the library raises. *)
Inductive exn_class : Type :=
| AttributeError
| KeyError
| TypeError
| JSONDecodeError
| OtherException.

(** An exception with its [str(e)]. *)
Record exn : Type := Exn { exn_kind : exn_class; exn_str : pystr }.

Inductive result (A : Type) : Type :=
| Ok (a : A)
| Raise (e : exn).
Arguments Ok {A} a.
Arguments Raise {A} e.

Definition is_JSONDecodeError (e : exn) : bool :=
  match exn_kind e with
  | JSONDecodeError => true
  | _ => false
  end.

(* ------------------------------------------------------------------ *)
(** ** The library and the runtime: what the script calls but does not
    contain *)

(** The [agno] module as the bridge uses it.  Every entry point either
    returns or raises an [Exception].  The names themselves are taken to
    resolve: looking up [agno.Agent], [agent.generate] or
    [agent.execute_tool] does not fail, so the order between resolving a
    callee and evaluating its arguments is not modelled. *)
Record AgnoLib : Type := {
  (** [agno.Agent(name=, description=, model=)] *)
  Agent : json -> json -> json -> result value;
  (** [agno.SystemMessage(content=)] and its siblings *)
  SystemMessage : json -> result value;
  UserMessage : json -> result value;
  AssistantMessage : json -> result value;
  (** [agno.FunctionMessage(content=, name=)] *)
  FunctionMessage : json -> json -> result value;
  (** attribute read [obj.attr] on a library object *)
  getattr : value -> pystr -> result value;
  (** [tool_name in agent.tools] *)
  tools_contains : value -> json -> result bool;
  (** [agent.generate(messages=, temperature=, max_tokens=, stop=)] *)
  generate : value -> list value -> json -> json -> json -> result value;
  (** [agent.execute_tool(tool_name, **params)] *)
  execute_tool_entry : value -> json -> list (pystr * json) -> result value;
  (** the qualified name of [execute_tool], as error messages print it *)
  execute_tool_qualname : pystr
}.

(** The rest of the environment.  [agno] is [None] when [import agno]
    failed. *)
Record Runtime : Type := {
  (** [str.isprintable] on one code point above ASCII (the Unicode
      database) *)
  unicode_printable : char -> bool;
  (** [type(o).__name__] of a library object *)
  obj_type_name : objref -> pystr;
  (** [traceback.format_exc()] while handling the exception *)
  format_exc : exn -> pystr;
  (** [json.loads] *)
  json_loads : pystr -> result json;
  agno : option AgnoLib
}.

(** The library calls the bridge makes, in order: an instrument for
    stating which entry points a run reaches. *)
Inductive call : Type :=
| CAgent (name description model : json)
| CSystemMessage (content : json)
| CUserMessage (content : json)
| CAssistantMessage (content : json)
| CFunctionMessage (content name : json)
| CGenerate (a : value) (messages : list value) (temperature max_tokens stop : json)
| CExecuteTool (a : value) (tool_name : json) (kwargs : list (pystr * json)).

(** The module-level [agent] variable, and the calls made so far. *)
Record state : Type := State { agent : value; calls : list call }.

Definition initial_state : state := State VNone [].

(* ------------------------------------------------------------------ *)
(** ** Statements that may raise and that read or write [agent] *)

Definition M (A : Type) : Type := state -> result A * state.

Definition ret {A} (a : A) : M A := fun st => (Ok a, st).

Definition bind {A B} (m : M A) (k : A -> M B) : M B :=
  fun st =>
    match m st with
    | (Ok a, st') => k a st'
    | (Raise e, st') => (Raise e, st')
    end.

(** A pure computation that may raise. *)
Definition lift {A} (r : result A) : M A := fun st => (r, st).

(** [try: body / except Exception as e: handler(e)].  What [body] did to
    the state before raising stays done. *)
Definition try_except {A} (body : M A) (handler : exn -> M A) : M A :=
  fun st =>
    match body st with
    | (Ok a, st') => (Ok a, st')
    | (Raise e, st') => handler e st'
    end.

Definition get_agent : M value := fun st => (Ok (agent st), st).

Definition set_agent (a : value) : M unit :=
  fun st => (Ok tt, State a (calls st)).

(** A call into the library: recorded, then its outcome. *)
Definition lib_call {A} (c : call) (r : result A) : M A :=
  fun st => (r, State (agent st) (calls st ++ [c])).

Declare Scope py_scope.
Delimit Scope py_scope with py.
Notation "x <- m ;; k" := (bind m (fun x => k))
  (at level 100, m at next level, right associativity) : py_scope.
Notation "m ;;; k" := (bind m (fun _ => k))
  (at level 100, right associativity) : py_scope.
Open Scope py_scope.

(** [agent is None] *)
Definition is_None (v : value) : bool :=
  match v with
  | VNone => true
  | _ => false
  end.

(* ------------------------------------------------------------------ *)
(** ** The built-ins the script relies on *)

Section Builtins.

Variable rt : Runtime.

(** [repr] of a [str]: single quotes unless the text has a single quote
    and no double quote. *)
Definition repr_quote (s : pystr) : char :=
  if existsb (N.eqb squote) s && negb (existsb (N.eqb dquote) s)
  then dquote else squote.

Definition repr_char (quote c : char) : pystr :=
  (if (c =? quote) || (c =? backslash) then [backslash; c]
   else if c =? 9 then lit "\t"
   else if c =? 10 then lit "\n"
   else if c =? 13 then lit "\r"
   else if (c <? 32) || (c =? 127) then lit "\x" ++ hex_fixed 2 c
   else if c <? 127 then [c]
   else if unicode_printable rt c then [c]
   else if c <=? 255 then lit "\x" ++ hex_fixed 2 c
   else if c <=? 65535 then lit "\u" ++ hex_fixed 4 c
   else lit "\U" ++ hex_fixed 8 c)%N.

Definition repr_str (s : pystr) : pystr :=
  let q := repr_quote s in
  [q] ++ flat_map (repr_char q) s ++ [q].

(** [repr(v)] *)
Fixpoint py_repr (j : json) : pystr :=
  match j with
  | JNone => lit "None"
  | JBool true => lit "True"
  | JBool false => lit "False"
  | JInt z => str_int z
  | JFloat r => r
  | JStr s => repr_str s
  | JList l => lit "[" ++ join (lit ", ") (map py_repr l) ++ lit "]"
  | JDict d =>
      lit "{"
      ++ join (lit ", ")
           (map (fun '(k, v) => repr_str k ++ lit ": " ++ py_repr v) d)
      ++ lit "}"
  end.

(** [str(v)], which is what an f-string field [{v}] inserts. *)
Definition py_str (j : json) : pystr :=
  match j with
  | JStr s => s
  | _ => py_repr j
  end.

(** [v.get(key, default)]: only a dict has [get]. *)
Definition py_get (v : json) (key : string) (default : json) : result json :=
  match v with
  | JDict d =>
      match dict_lookup (lit key) d with
      | Some x => Ok x
      | None => Ok default
      end
  | _ =>
      Raise (Exn AttributeError
               (lit "'" ++ type_name v ++ lit "' object has no attribute 'get'"))
  end.

(** [v[key]] with a string key (messages as CPython 3.11 words them). *)
Definition py_getitem (v : json) (key : string) : result json :=
  match v with
  | JDict d =>
      match dict_lookup (lit key) d with
      | Some x => Ok x
      | None => Raise (Exn KeyError (repr_str (lit key)))
      end
  | JStr _ => Raise (Exn TypeError (lit "string indices must be integers, not 'str'"))
  | JList _ =>
      Raise (Exn TypeError (lit "list indices must be integers or slices, not str"))
  | _ =>
      Raise (Exn TypeError (lit "'" ++ type_name v ++ lit "' object is not subscriptable"))
  end.

(** [iter(v)], run to the end: the items a [for] loop over [v] visits. *)
Definition py_iter (v : json) : result (list json) :=
  match v with
  | JList l => Ok l
  | JStr s => Ok (map (fun c => JStr [c]) s)
  | JDict d => Ok (map (fun kv => JStr (fst kv)) d)
  | _ => Raise (Exn TypeError (lit "'" ++ type_name v ++ lit "' object is not iterable"))
  end.

(** [v[:n]] *)
Definition py_slice_to (n : nat) (v : json) : result json :=
  match v with
  | JStr s => Ok (JStr (firstn n s))
  | JList l => Ok (JList (firstn n l))
  | JDict _ => Raise (Exn TypeError (lit "unhashable type: 'slice'"))
  | _ =>
      Raise (Exn TypeError (lit "'" ++ type_name v ++ lit "' object is not subscriptable"))
  end.

(** [**v] in a call to [execute_tool]. *)
Definition py_kwargs (lib : AgnoLib) (v : json) : result (list (pystr * json)) :=
  match v with
  | JDict d => Ok d
  | _ =>
      Raise (Exn TypeError
               (execute_tool_qualname lib
                ++ lit "() argument after ** must be a mapping, not "
                ++ type_name v))
  end.

(** *** [json.dumps] with its defaults *)

Definition json_escape_char (c : char) : pystr :=
  (if c =? dquote then [backslash; dquote]
   else if c =? backslash then [backslash; backslash]
   else if c =? 10 then lit "\n"
   else if c =? 13 then lit "\r"
   else if c =? 9 then lit "\t"
   else if c =? 12 then lit "\f"
   else if c =? 8 then lit "\b"
   else if (32 <=? c) && (c <=? 126) then [c]
   else if c <? 65536 then lit "\u" ++ hex_fixed 4 c
   else
     let v := c - 65536 in
     lit "\u" ++ hex_fixed 4 (N.lor 55296 (N.land (N.shiftr v 10) 1023))
     ++ lit "\u" ++ hex_fixed 4 (N.lor 56320 (N.land v 1023)))%N.

Definition json_string (s : pystr) : pystr :=
  [dquote] ++ flat_map json_escape_char s ++ [dquote].

Definition json_float (r : pystr) : pystr :=
  if pystr_eqb r (lit "nan") then lit "NaN"
  else if pystr_eqb r (lit "inf") then lit "Infinity"
  else if pystr_eqb r (lit "-inf") then lit "-Infinity"
  else r.

Fixpoint json_dumps (j : json) : pystr :=
  match j with
  | JNone => lit "null"
  | JBool true => lit "true"
  | JBool false => lit "false"
  | JInt z => str_int z
  | JFloat r => json_float r
  | JStr s => json_string s
  | JList l => lit "[" ++ join (lit ", ") (map json_dumps l) ++ lit "]"
  | JDict d =>
      lit "{"
      ++ join (lit ", ")
           (map (fun '(k, v) => json_string k ++ lit ": " ++ json_dumps v) d)
      ++ lit "}"
  end.

(** The first library object met in [v], if any. *)
Fixpoint first_obj (v : value) : option objref :=
  match v with
  | VObj o => Some o
  | VList l =>
      (fix go (l : list value) : option objref :=
         match l with
         | [] => None
         | x :: rest =>
             match first_obj x with
             | Some o => Some o
             | None => go rest
             end
         end) l
  | VDict d =>
      (fix go (d : list (pystr * value)) : option objref :=
         match d with
         | [] => None
         | (_, x) :: rest =>
             match first_obj x with
             | Some o => Some o
             | None => go rest
             end
         end) d
  | _ => None
  end.

(** [json.dumps(v)] on a value that may hold library objects: those are
    not serializable. *)
Definition dumps_value (v : value) : result pystr :=
  match to_json v with
  | Some j => Ok (json_dumps j)
  | None =>
      Raise (Exn TypeError
               (lit "Object of type "
                ++ match first_obj v with
                   | Some o => obj_type_name rt o
                   | None => lit "object"
                   end
                ++ lit " is not JSON serializable"))
  end.

(** [print(s)] *)
Definition print (s : pystr) : pystr := s ++ [newline].

End Builtins.

(* ------------------------------------------------------------------ *)
(** ** The bridge *)

Section Bridge.

Variable rt : Runtime.

(** [AGNO_AVAILABLE]: whether [import agno] succeeded. *)
Definition AGNO_AVAILABLE : bool :=
  match agno rt with
  | Some _ => true
  | None => false
  end.

(** A response dict [{'success': True, 'data': data}]. *)
Definition success_response (data : value) : value :=
  VDict [(lit "success", VBool true); (lit "data", data)].

(** A response dict [{'success': False, 'error': error}]. *)
Definition error_response (error : pystr) : value :=
  VDict [(lit "success", VBool false); (lit "error", VStr error)].

(** The agent descriptor [{'name':, 'description':, 'model':, 'demo':}]. *)
Definition agent_info (name description model : value) (demo : bool) : value :=
  VDict [(lit "name", name); (lit "description", description);
         (lit "model", model); (lit "demo", VBool demo)].

(** *** [initialize_agent] *)

Definition initialize_agent (config : json) : M value :=
  match agno rt with
  | None =>
      name <- lift (py_get config "agentName" (JStr (lit "Agent Nexus")));;
      description <-
        lift (py_get config "description"
                (JStr (lit "Demo Agent (agno not available)")));;
      model <- lift (py_get config "modelName" (JStr (lit "demo-model")));;
      ret (success_response
             (agent_info (of_json name) (of_json description) (of_json model) true))
  | Some lib =>
      try_except
        (name <- lift (py_get config "agentName" (JStr (lit "Agent Nexus")));;
         description <-
           lift (py_get config "description"
                   (JStr (lit "An advanced cognitive agent architecture")));;
         model <- lift (py_get config "modelName" (JStr (lit "gpt-4")));;
         a <- lib_call (CAgent name description model)
                (Agent lib name description model);;
         set_agent a;;;
         a1 <- get_agent;;
         n <- lift (getattr lib a1 (lit "name"));;
         a2 <- get_agent;;
         d <- lift (getattr lib a2 (lit "description"));;
         a3 <- get_agent;;
         m <- lift (getattr lib a3 (lit "model"));;
         ret (success_response (agent_info n d m false)))
        (fun e =>
           ret (error_response (lit "Failed to initialize agent: " ++ exn_str e)))
  end.

(** *** [generate_completion] *)

(** [next((m['content'] for m in messages if m['role'] == 'user'), '')]
    over the items of [messages]: the generator stops at the first user
    message and looks no further. *)
Fixpoint first_user_content (items : list json) : result json :=
  match items with
  | [] => Ok (JStr [])
  | m :: rest =>
      match py_getitem rt m "role" with
      | Raise e => Raise e
      | Ok role =>
          if eq_str role "user" then py_getitem rt m "content"
          else first_user_content rest
      end
  end.

Definition demo_completion_text (shown : pystr) : pystr :=
  lit "Demo response to: '" ++ shown ++ lit "...'" ++ [newline; newline]
  ++ lit "This is a demo response because the agno library is not available. Please install the agno library for full functionality.".

Definition demo_completion (messages : json) : M value :=
  items <- lift (py_iter messages);;
  user_message <- lift (first_user_content items);;
  shown <- lift (py_slice_to 50 user_message);;
  ret (success_response (VStr (demo_completion_text (py_str rt shown)))).

(** One turn of the loop that converts messages to agno format: what it
    appends to [agno_messages]. *)
Definition convert_message (lib : AgnoLib) (msg : json) : M (list value) :=
  role <- lift (py_getitem rt msg "role");;
  content <- lift (py_getitem rt msg "content");;
  if eq_str role "system" then
    m <- lib_call (CSystemMessage content) (SystemMessage lib content);;
    ret [m]
  else if eq_str role "user" then
    m <- lib_call (CUserMessage content) (UserMessage lib content);;
    ret [m]
  else if eq_str role "assistant" then
    m <- lib_call (CAssistantMessage content) (AssistantMessage lib content);;
    ret [m]
  else if eq_str role "function" || eq_str role "tool" then
    name <- lift (py_get msg "name" (JStr (lit "function")));;
    m <- lib_call (CFunctionMessage content name) (FunctionMessage lib content name);;
    ret [m]
  else ret [].

(** The loop itself, from the [agno_messages] built so far. *)
Fixpoint convert_messages (lib : AgnoLib) (items : list json)
    (agno_messages : list value) : M (list value) :=
  match items with
  | [] => ret agno_messages
  | msg :: rest =>
      new <- convert_message lib msg;;
      convert_messages lib rest (agno_messages ++ new)
  end.

Definition generate_completion (messages options : json) : M value :=
  match agno rt with
  | None => demo_completion messages
  | Some lib =>
      a <- get_agent;;
      if is_None a then demo_completion messages
      else
        try_except
          (items <- lift (py_iter messages);;
           agno_messages <- convert_messages lib items [];;
           a' <- get_agent;;
           temperature <- lift (py_get options "temperature" (JFloat (lit "0.7")));;
           max_tokens <- lift (py_get options "maxTokens" (JInt 1000));;
           stop <- lift (py_get options "stop" JNone);;
           response <-
             lib_call (CGenerate a' agno_messages temperature max_tokens stop)
               (generate lib a' agno_messages temperature max_tokens stop);;
           content <- lift (getattr lib response (lit "content"));;
           ret (success_response content))
          (fun e =>
             ret (error_response
                    (lit "Failed to generate completion: " ++ exn_str e)))
  end.

(** *** [execute_tool] *)

Definition demo_tool_text (tool_name params : json) : pystr :=
  lit "Demo tool execution for: " ++ py_str rt tool_name ++ [newline]
  ++ lit "Parameters: " ++ json_dumps params ++ [newline; newline]
  ++ lit "This is a demo response because the agno library is not available.".

Definition execute_tool (tool_name params : json) : M value :=
  match agno rt with
  | None => ret (success_response (VStr (demo_tool_text tool_name params)))
  | Some lib =>
      a <- get_agent;;
      if is_None a then
        ret (success_response (VStr (demo_tool_text tool_name params)))
      else
        try_except
          (present <- lift (tools_contains lib a tool_name);;
           if negb present then
             ret (error_response (lit "Tool not found: " ++ py_str rt tool_name))
           else
             a' <- get_agent;;
             kwargs <- lift (py_kwargs lib params);;
             result <-
               lib_call (CExecuteTool a' tool_name kwargs)
                 (execute_tool_entry lib a' tool_name kwargs);;
             ret (success_response result))
          (fun e =>
             ret (error_response
                    (lit "Failed to execute tool " ++ py_str rt tool_name
                     ++ lit ": " ++ exn_str e)))
  end.

(** *** [handle_request] *)

Definition handle_request (request : json) : M value :=
  action <- lift (py_get request "action" JNone);;
  data <- lift (py_get request "data" (JDict []));;
  try_except
    (if eq_str action "ping" then
       ret (success_response (VBool true))
     else if eq_str action "initialize_agent" then
       initialize_agent data
     else if eq_str action "generate_completion" then
       messages <- lift (py_get data "messages" (JList []));;
       options <- lift (py_get data "options" (JDict []));;
       generate_completion messages options
     else if eq_str action "execute_tool" then
       tool_name <- lift (py_get data "toolName" JNone);;
       params <- lift (py_get data "params" (JDict []));;
       execute_tool tool_name params
     else
       ret (error_response (lit "Unknown action: " ++ py_str rt action)))
    (fun e =>
       ret (VDict [(lit "success", VBool false);
                   (lit "error",
                    VStr (lit "Error processing " ++ py_str rt action
                          ++ lit ": " ++ exn_str e));
                   (lit "traceback", VStr (format_exc rt e))])).

(** The body of the [try] in [handle_request], for the [action] and the
    [data] read from the request. *)
Definition dispatch (action data : json) : M value :=
  if eq_str action "ping" then
    ret (success_response (VBool true))
  else if eq_str action "initialize_agent" then
    initialize_agent data
  else if eq_str action "generate_completion" then
    messages <- lift (py_get data "messages" (JList []));;
    options <- lift (py_get data "options" (JDict []));;
    generate_completion messages options
  else if eq_str action "execute_tool" then
    tool_name <- lift (py_get data "toolName" JNone);;
    params <- lift (py_get data "params" (JDict []));;
    execute_tool tool_name params
  else
    ret (error_response (lit "Unknown action: " ++ py_str rt action)).

(** *** [main] *)

(** [stdin] is what [sys.stdin.read()] does: it returns the text, or
    raises.  The result is what the run writes to standard output. *)
Definition main (stdin : result pystr) : M pystr :=
  try_except
    (request_json <- lift stdin;;
     request <- lift (json_loads rt request_json);;
     response <- handle_request request;;
     out <- lift (dumps_value rt response);;
     ret (print out))
    (fun e =>
       if is_JSONDecodeError e then
         ret (print (json_dumps
                       (JDict [(lit "success", JBool false);
                               (lit "error",
                                JStr (lit "Invalid JSON: " ++ exn_str e))])))
       else
         ret (print (json_dumps
                       (JDict [(lit "success", JBool false);
                               (lit "error",
                                JStr (lit "Unexpected error: " ++ exn_str e))])))).

End Bridge.

(* ------------------------------------------------------------------ *)
(** ** Specification-side notions *)




(** The three shapes of response the bridge builds. *)
Inductive is_response : value -> Prop :=
| response_success (data : value) :
    is_response (VDict [(lit "success", VBool true); (lit "data", data)])
| response_error (error : pystr) :
    is_response (VDict [(lit "success", VBool false); (lit "error", VStr error)])
| response_error_traceback (error traceback : pystr) :
    is_response (VDict [(lit "success", VBool false); (lit "error", VStr error);
                        (lit "traceback", VStr traceback)]).

(* ------------------------------------------------------------------ *)
(** ** Sample environments *)

(** A parser that knows a few documents and rejects everything else the
    way [json.loads] rejects text that starts no JSON value. *)
Definition sample_loads (text : pystr) : result json :=
  if pystr_eqb text (lit "[]") then Ok (JList [])
  else if pystr_eqb text (lit "{}") then Ok (JDict [])
  else if pystr_eqb text (lit "null") then Ok JNone
  else Raise (Exn JSONDecodeError (lit "Expecting value: line 1 column 1 (char 0)")).

(** A library whose agent has one tool, [search], and which refuses an
    empty agent name. *)
Definition sample_agno : AgnoLib :=
  {| Agent := fun name _ _ =>
       match name with
       | JStr [] => Raise (Exn OtherException (lit "name must not be empty"))
       | _ => Ok (VObj 1%N)
       end;
     SystemMessage := fun _ => Ok (VObj 2%N);
     UserMessage := fun _ => Ok (VObj 3%N);
     AssistantMessage := fun _ => Ok (VObj 4%N);
     FunctionMessage := fun _ _ => Ok (VObj 5%N);
     getattr := fun _ attr => Ok (VStr attr);
     tools_contains := fun _ tool_name => Ok (eq_str tool_name "search");
     generate := fun _ _ _ _ _ => Ok (VObj 6%N);
     execute_tool_entry := fun _ _ _ => Ok (VStr (lit "done"));
     execute_tool_qualname := lit "agno.agent.Agent.execute_tool" |}.

Definition sample_runtime (lib : option AgnoLib) : Runtime :=
  {| unicode_printable := fun _ => true;
     obj_type_name := fun _ => lit "Agent";
     format_exc := fun e => lit "Traceback (most recent call last): " ++ exn_str e;
     json_loads := sample_loads;
     agno := lib |}.

(** Without the library, and with it. *)
Definition demo_runtime : Runtime := sample_runtime None.
Definition agno_runtime : Runtime := sample_runtime (Some sample_agno).


(** Sample requests and messages. *)
Definition ping_request : list (pystr * json) :=
  [(lit "action", JStr (lit "ping")); (lit "data", JInt 7)].

Definition shutdown_request : list (pystr * json) :=
  [(lit "action", JStr (lit "shutdown"))].

Definition actionless_request : list (pystr * json) :=
  [(lit "data", JDict [])].

Definition message (role content : string) : json :=
  JDict [(lit "role", JStr (lit role)); (lit "content", JStr (lit content))].

Definition sample_messages : list json :=
  [message "system" "be brief"; message "user" "hello"; message "user" "bye"].

(** A state in which an agent has been initialized. *)
Definition agent_state : state := State (VObj 1%N) [].

(* ------------------------------------------------------------------ *)
(** ** Notions for the paths beyond the demo defaults *)

(** [config.get(key, default)] on a config that is a dict. *)
Definition config_field (d : list (pystr * json)) (key : string) (default : json) : json :=
  match dict_lookup (lit key) d with
  | Some x => x
  | None => default
  end.

(** The three arguments [initialize_agent] passes to [agno.Agent] for the
    config [d], with the defaults of the library path. *)
Definition agent_name (d : list (pystr * json)) : json :=
  config_field d "agentName" (JStr (lit "Agent Nexus")).
Definition agent_description (d : list (pystr * json)) : json :=
  config_field d "description" (JStr (lit "An advanced cognitive agent architecture")).
Definition agent_model (d : list (pystr * json)) : json :=
  config_field d "modelName" (JStr (lit "gpt-4")).

(** The three options [generate_completion] passes to [agent.generate]. *)
Definition option_temperature (o : list (pystr * json)) : json :=
  config_field o "temperature" (JFloat (lit "0.7")).
Definition option_max_tokens (o : list (pystr * json)) : json :=
  config_field o "maxTokens" (JInt 1000).
Definition option_stop (o : list (pystr * json)) : json :=
  config_field o "stop" JNone.

(** Whether the conversion loop has a branch for the role of [m]. *)
Definition has_known_role (rt : Runtime) (m : json) : bool :=
  match py_getitem rt m "role" with
  | Ok role =>
      eq_str role "system" || eq_str role "user" || eq_str role "assistant"
      || eq_str role "function" || eq_str role "tool"
  | Raise _ => false
  end.

(** A message of the data model whose role is not [user]. *)
Definition is_other_message (m : json) : Prop :=
  exists d role content,
    m = JDict d
    /\ dict_lookup (lit "role") d = Some (JStr role)
    /\ role <> lit "user"
    /\ dict_lookup (lit "content") d = Some (JStr content).

(** A computation that leaves the [agent] variable alone. *)
Definition keeps_agent {A} (m : M A) : Prop :=
  forall st, agent (snd (m st)) = agent st.

(** A computation that leaves the whole state alone. *)
Definition keeps_state {A} (m : M A) : Prop :=
  forall st, snd (m st) = st.

(** The state after one more library call. *)
Definition after_call (st : state) (c : call) : state :=
  State (agent st) (calls st ++ [c]).

(** *** More sample environments *)

(** A parser given by a table of the documents it knows. *)
Definition table_loads (table : list (pystr * json)) (text : pystr) : result json :=
  match dict_lookup text table with
  | Some request => Ok request
  | None => Raise (Exn JSONDecodeError (lit "Expecting value: line 1 column 1 (char 0)"))
  end.

Definition table_runtime (table : list (pystr * json)) (lib : option AgnoLib) : Runtime :=
  {| unicode_printable := fun _ => true;
     obj_type_name := fun _ => lit "Agent";
     format_exc := fun e => lit "Traceback (most recent call last): " ++ exn_str e;
     json_loads := table_loads table;
     agno := lib |}.

(** A library whose agent objects cannot report their attributes. *)
Definition mute_agno : AgnoLib :=
  {| Agent := fun _ _ _ => Ok (VObj 8%N);
     SystemMessage := fun _ => Ok (VObj 2%N);
     UserMessage := fun _ => Ok (VObj 3%N);
     AssistantMessage := fun _ => Ok (VObj 4%N);
     FunctionMessage := fun _ _ => Ok (VObj 5%N);
     getattr := fun _ attr =>
       Raise (Exn AttributeError
                (lit "'Agent' object has no attribute '" ++ attr ++ lit "'"));
     tools_contains := fun _ _ => Ok true;
     generate := fun _ _ _ _ _ =>
       Raise (Exn OtherException (lit "model unavailable"));
     execute_tool_entry := fun _ _ _ =>
       Raise (Exn OtherException (lit "tool crashed"));
     execute_tool_qualname := lit "Agent.execute_tool" |}.

(** A library whose agents are numbered by the length of their name, and
    whose tools hand back library objects. *)
Definition object_agno : AgnoLib :=
  {| Agent := fun name _ _ =>
       match name with
       | JStr s => Ok (VObj (N.of_nat (length s)))
       | _ => Ok (VObj 0%N)
       end;
     SystemMessage := fun _ => Ok (VObj 2%N);
     UserMessage := fun _ => Ok (VObj 3%N);
     AssistantMessage := fun _ => Ok (VObj 4%N);
     FunctionMessage := fun _ _ => Ok (VObj 5%N);
     getattr := fun _ attr => Ok (VStr attr);
     tools_contains := fun _ _ => Ok true;
     generate := fun _ _ _ _ _ => Ok (VObj 6%N);
     execute_tool_entry := fun _ _ _ => Ok (VObj 7%N);
     execute_tool_qualname := lit "Agent.execute_tool" |}.

Definition mute_runtime : Runtime := sample_runtime (Some mute_agno).

Definition object_runtime : Runtime := sample_runtime (Some object_agno).

(** The number of opening brackets [text] starts with. *)
Definition leading_brackets (text : pystr) : N :=
  (fix count (text : pystr) (n : N) : N :=
     match text with
     | c :: rest => if N.eqb c 91 then count rest (N.succ n) else n
     | [] => n
     end) text 0%N.

(** A parser that, like CPython's, gives up on arrays nested deeper than
    the interpreter's recursion limit, and that reads [NaN] as a float. *)
Definition deep_loads (text : pystr) : result json :=
  if (1000 <=? leading_brackets text)%N then
    Raise (Exn OtherException
             (lit "maximum recursion depth exceeded while decoding a JSON array from a unicode string"))
  else if pystr_eqb text (lit "NaN") then Ok (JFloat (lit "nan"))
  else sample_loads text.

Definition deep_runtime : Runtime :=
  {| unicode_printable := fun _ => true;
     obj_type_name := fun _ => lit "Agent";
     format_exc := fun e => lit "Traceback (most recent call last): " ++ exn_str e;
     json_loads := deep_loads;
     agno := None |}.

(** One hundred thousand opening brackets: no JSON document. *)
Definition deep_text : pystr := repeat 91%N (N.to_nat 100000).

(** Sample documents, with the requests they decode to. *)
Definition quoted (s : string) : pystr := [dquote] ++ lit s ++ [dquote].

Definition ping_text : pystr :=
  lit "{" ++ quoted "action" ++ lit ": " ++ quoted "ping" ++ lit ", "
  ++ quoted "data" ++ lit ": 7}".

Definition tool_request : list (pystr * json) :=
  [(lit "action", JStr (lit "execute_tool"));
   (lit "data", JDict [(lit "toolName", JStr (lit "fetch"))])].

Definition tool_text : pystr :=
  lit "{" ++ quoted "action" ++ lit ": " ++ quoted "execute_tool" ++ lit ", "
  ++ quoted "data" ++ lit ": {" ++ quoted "toolName" ++ lit ": "
  ++ quoted "fetch" ++ lit "}}".

Definition sample_documents : list (pystr * json) :=
  [(ping_text, JDict ping_request); (tool_text, JDict tool_request)].

(** A request for [action] with [data]. *)
Definition request_of (action : string) (data : json) : list (pystr * json) :=
  [(lit "action", JStr (lit action)); (lit "data", data)].

(* ------------------------------------------------------------------ *)
(** ** Basic facts *)

Lemma pystr_eqb_eq a b : pystr_eqb a b = true <-> a = b.
Proof.
  unfold pystr_eqb. destruct (list_eq_dec N.eq_dec a b); split; congruence.
Qed.

Lemma pystr_eqb_refl a : pystr_eqb a a = true.
Proof. apply pystr_eqb_eq. reflexivity. Qed.

Lemma pystr_eqb_neq a b : a <> b -> pystr_eqb a b = false.
Proof.
  intros H. destruct (pystr_eqb a b) eqn:E; [|reflexivity].
  apply pystr_eqb_eq in E. contradiction.
Qed.

(* ------------------------------------------------------------------ *)
(** ** Properties of the dispatcher *)

Lemma eq_str_true j s : eq_str j s = true <-> j = JStr (lit s).
Proof.
  destruct j; simpl; split; try discriminate.
  - intros H. apply pystr_eqb_eq in H. congruence.
  - intros H. injection H as ->. apply pystr_eqb_refl.
Qed.

Lemma eq_str_false j s : j <> JStr (lit s) -> eq_str j s = false.
Proof.
  intros H. destruct (eq_str j s) eqn:E; [|reflexivity].
  apply eq_str_true in E. contradiction.
Qed.

Lemma py_get_dict d key default :
  py_get (JDict d) key default =
  Ok (match dict_lookup (lit key) d with Some x => x | None => default end).
Proof. unfold py_get. destruct (dict_lookup (lit key) d); reflexivity. Qed.

Section Dispatcher.

Variable rt : Runtime.

(** C8.  A request object whose action is [ping] gets exactly
    [{'success': True, 'data': True}], whatever its data field, whether or
    not the library is there, and whatever the agent handle holds; the
    state is left as it was, so asking again gives the same response. *)
Theorem ping_exact_response (d : list (pystr * json)) (st : state) :
  dict_lookup (lit "action") d = Some (JStr (lit "ping")) ->
  handle_request rt (JDict d) st
  = (Ok (VDict [(lit "success", VBool true); (lit "data", VBool true)]), st)
  /\ (r1 <- handle_request rt (JDict d);;
      r2 <- handle_request rt (JDict d);;
      ret (r1, r2)) st
     = (Ok (VDict [(lit "success", VBool true); (lit "data", VBool true)],
            VDict [(lit "success", VBool true); (lit "data", VBool true)]), st).
Proof.
  intros Hact.
  assert (H1 : handle_request rt (JDict d) st
               = (Ok (VDict [(lit "success", VBool true); (lit "data", VBool true)]), st)).
  { unfold handle_request. rewrite !py_get_dict, Hact. reflexivity. }
  split; [exact H1|].
  unfold bind at 1. rewrite H1.
  unfold bind at 1. rewrite H1. reflexivity.
Qed.

(** C5.  A request object whose action is none of the four known names
    gets exactly [{'success': False, 'error': 'Unknown action: <action>'}],
    with [<action>] the action as [str] prints it; the agent handle and the
    record of library calls are untouched. *)
Theorem unknown_action_response (d : list (pystr * json)) (action : json) (st : state) :
  py_get (JDict d) "action" JNone = Ok action ->
  action <> JStr (lit "ping") ->
  action <> JStr (lit "initialize_agent") ->
  action <> JStr (lit "generate_completion") ->
  action <> JStr (lit "execute_tool") ->
  handle_request rt (JDict d) st
  = (Ok (VDict [(lit "success", VBool false);
                (lit "error", VStr (lit "Unknown action: " ++ py_str rt action))]),
     st).
Proof.
  intros Hact H1 H2 H3 H4.
  unfold handle_request. rewrite Hact, py_get_dict.
  unfold bind, lift, try_except.
  rewrite (eq_str_false _ _ H1), (eq_str_false _ _ H2), (eq_str_false _ _ H3),
    (eq_str_false _ _ H4).
  reflexivity.
Qed.

(** C10.  A request object without an action field gets
    [{'success': False, 'error': 'Unknown action: None'}]. *)
Theorem missing_action_response (d : list (pystr * json)) (st : state) :
  dict_lookup (lit "action") d = None ->
  handle_request rt (JDict d) st
  = (Ok (VDict [(lit "success", VBool false);
                (lit "error", VStr (lit "Unknown action: None"))]),
     st).
Proof.
  intros Hact.
  unfold handle_request. rewrite !py_get_dict, Hact. reflexivity.
Qed.

End Dispatcher.

(* ------------------------------------------------------------------ *)
(** ** Properties of the action handlers *)

Lemma bind_get_agent {A} (k : value -> M A) (st : state) :
  bind get_agent k st = k (agent st) st.
Proof. reflexivity. Qed.

Lemma is_None_false (v : value) : v <> VNone -> is_None v = false.
Proof. destruct v; congruence || reflexivity. Qed.

Section Handlers.

Variable rt : Runtime.

Lemma AGNO_AVAILABLE_false : AGNO_AVAILABLE rt = false <-> agno rt = None.
Proof. unfold AGNO_AVAILABLE. destruct (agno rt); split; congruence. Qed.

(** C3.  Without the library, [initialize_agent({})] answers with the
    demo descriptor, whose model is ['demo-model'], and leaves the agent
    handle (and the record of library calls) as it was. *)
Theorem initialize_agent_demo_defaults (st : state) :
  AGNO_AVAILABLE rt = false ->
  initialize_agent rt (JDict []) st
  = (Ok (VDict
           [(lit "success", VBool true);
            (lit "data",
             VDict [(lit "name", VStr (lit "Agent Nexus"));
                    (lit "description", VStr (lit "Demo Agent (agno not available)"));
                    (lit "model", VStr (lit "demo-model"));
                    (lit "demo", VBool true)])]),
     st).
Proof.
  intros H. apply AGNO_AVAILABLE_false in H.
  unfold initialize_agent. rewrite H. reflexivity.
Qed.

(** C4.  With the library, when the agent constructor raises,
    [initialize_agent] answers
    [{'success': False, 'error': 'Failed to initialize agent: <message>'}]
    and the agent handle holds what it held before: the only trace of the
    call is the constructor call itself. *)
Theorem initialize_agent_constructor_raises
    (lib : AgnoLib) (d : list (pystr * json)) (name description model : json)
    (e : exn) (st : state) :
  agno rt = Some lib ->
  py_get (JDict d) "agentName" (JStr (lit "Agent Nexus")) = Ok name ->
  py_get (JDict d) "description"
    (JStr (lit "An advanced cognitive agent architecture")) = Ok description ->
  py_get (JDict d) "modelName" (JStr (lit "gpt-4")) = Ok model ->
  Agent lib name description model = Raise e ->
  exists st',
    initialize_agent rt (JDict d) st
    = (Ok (VDict [(lit "success", VBool false);
                  (lit "error",
                   VStr (lit "Failed to initialize agent: " ++ exn_str e))]),
       st')
    /\ agent st' = agent st
    /\ calls st' = calls st ++ [CAgent name description model].
Proof.
  intros Hlib Hn Hd Hm Hraise.
  eexists. unfold initialize_agent. rewrite Hlib.
  unfold try_except, bind, lift, lib_call. rewrite Hn, Hd, Hm, Hraise.
  split; [reflexivity|]. split; reflexivity.
Qed.

(** C6.  With the library and an agent, [execute_tool] on a name the
    agent's tool set does not hold answers
    [{'success': False, 'error': 'Tool not found: <toolName>'}] and makes no
    library call: the state, record of calls included, is as before. *)
Theorem execute_tool_not_found
    (lib : AgnoLib) (tool_name params : json) (st : state) :
  agno rt = Some lib ->
  agent st <> VNone ->
  tools_contains lib (agent st) tool_name = Ok false ->
  execute_tool rt tool_name params st
  = (Ok (VDict [(lit "success", VBool false);
                (lit "error", VStr (lit "Tool not found: " ++ py_str rt tool_name))]),
     st).
Proof.
  intros Hlib Hagent Hno.
  unfold execute_tool. rewrite Hlib.
  rewrite bind_get_agent, (is_None_false _ Hagent).
  unfold try_except, bind, lift. rewrite Hno. reflexivity.
Qed.

End Handlers.

(* ------------------------------------------------------------------ *)
(** ** Properties of completion generation *)

Section Completion.

Variable rt : Runtime.




(** *** The conversion loop *)

Lemma convert_message_unknown_role
    (lib : AgnoLib) (m role content : json) (st : state) :
  py_getitem rt m "role" = Ok role ->
  py_getitem rt m "content" = Ok content ->
  role <> JStr (lit "system") ->
  role <> JStr (lit "user") ->
  role <> JStr (lit "assistant") ->
  role <> JStr (lit "function") ->
  role <> JStr (lit "tool") ->
  convert_message rt lib m st = (Ok [], st).
Proof.
  intros Hr Hc H1 H2 H3 H4 H5.
  unfold convert_message, bind, lift. rewrite Hr, Hc.
  rewrite (eq_str_false _ _ H1), (eq_str_false _ _ H2), (eq_str_false _ _ H3),
    (eq_str_false _ _ H4), (eq_str_false _ _ H5).
  reflexivity.
Qed.

Lemma convert_message_length
    (lib : AgnoLib) (m : json) (st st' : state) (new : list value) :
  convert_message rt lib m st = (Ok new, st') -> length new <= 1.
Proof.
  unfold convert_message, bind, lift, lib_call, ret.
  destruct (py_getitem rt m "role") as [role|]; [|discriminate].
  destruct (py_getitem rt m "content") as [content|]; [|discriminate].
  repeat match goal with
         | |- context [if ?b then _ else _] => destruct b
         | |- context [match ?r with Ok _ => _ | Raise _ => _ end] => destruct r
         end;
    intros H; inversion H; simpl; lia.
Qed.

Lemma convert_messages_length
    (lib : AgnoLib) (items : list json) :
  forall (acc : list value) (st st' : state) (out : list value),
    convert_messages rt lib items acc st = (Ok out, st') ->
    length out <= length acc + length items.
Proof.
  induction items as [|m rest IH]; intros acc st st' out H; simpl in *.
  - inversion H. lia.
  - unfold bind in H.
    destruct (convert_message rt lib m st) as [[new|e] st1] eqn:Hm; [|discriminate].
    apply IH in H. apply convert_message_length in Hm.
    rewrite length_app in H. lia.
Qed.

Lemma convert_messages_skip
    (lib : AgnoLib) (m : json) (pre post : list json) :
  (forall st, convert_message rt lib m st = (Ok [], st)) ->
  forall (acc : list value) (st : state),
    convert_messages rt lib (pre ++ m :: post) acc st
    = convert_messages rt lib (pre ++ post) acc st.
Proof.
  intros Hm. induction pre as [|p pre IH]; intros acc st; simpl.
  - unfold bind. rewrite Hm, app_nil_r. reflexivity.
  - unfold bind. destruct (convert_message rt lib p st) as [[new|e] st1].
    + apply IH.
    + reflexivity.
Qed.

(** C9.  In the library-backed path, a message with a role and a content
    whose role is none of [system], [user], [assistant], [function], [tool]
    is passed over: its turn of the loop appends nothing, raises nothing and
    calls nothing; the loop, and with it the whole of
    [generate_completion], does what it does without that message; and the
    converted sequence is strictly shorter than the input. *)
Theorem unknown_role_is_omitted
    (lib : AgnoLib) (m role content : json) (pre post : list json) :
  agno rt = Some lib ->
  py_getitem rt m "role" = Ok role ->
  py_getitem rt m "content" = Ok content ->
  role <> JStr (lit "system") ->
  role <> JStr (lit "user") ->
  role <> JStr (lit "assistant") ->
  role <> JStr (lit "function") ->
  role <> JStr (lit "tool") ->
  (forall st, convert_message rt lib m st = (Ok [], st))
  /\ (forall acc st,
        convert_messages rt lib (pre ++ m :: post) acc st
        = convert_messages rt lib (pre ++ post) acc st)
  /\ (forall options st,
        agent st <> VNone ->
        generate_completion rt (JList (pre ++ m :: post)) options st
        = generate_completion rt (JList (pre ++ post)) options st)
  /\ (forall st st' out,
        convert_messages rt lib (pre ++ m :: post) [] st = (Ok out, st') ->
        length out < length (pre ++ m :: post)).
Proof.
  intros Hlib Hr Hc H1 H2 H3 H4 H5.
  assert (Hm : forall st, convert_message rt lib m st = (Ok [], st)).
  { intros st. eapply convert_message_unknown_role; eassumption. }
  assert (Hskip := convert_messages_skip lib m pre post Hm).
  split; [exact Hm|]. split; [exact Hskip|]. split.
  - intros options st Hagent. unfold generate_completion. rewrite Hlib.
    rewrite !bind_get_agent, (is_None_false _ Hagent).
    unfold try_except, bind, lift. cbn [py_iter].
    rewrite Hskip. reflexivity.
  - intros st st' out H. rewrite Hskip in H.
    apply convert_messages_length in H.
    rewrite !length_app in *. simpl in *. lia.
Qed.

End Completion.

(* ------------------------------------------------------------------ *)
(** ** Totality of the dispatcher, and the top level *)

Create HintDb bridge.
#[local] Hint Constructors is_response : bridge.

(** How a run that returned came to return. *)
Lemma bind_Ok_inv {A B} (m : M A) (k : A -> M B) (st st' : state) (b : B) :
  bind m k st = (Ok b, st') ->
  exists a st1, m st = (Ok a, st1) /\ k a st1 = (Ok b, st').
Proof.
  unfold bind. destruct (m st) as [[a|e] st1]; [|discriminate].
  intros H. exists a, st1. split; [reflexivity|exact H].
Qed.

Lemma try_except_Ok_inv {A} (body : M A) (handler : exn -> M A)
    (st st' : state) (a : A) :
  try_except body handler st = (Ok a, st') ->
  body st = (Ok a, st')
  \/ exists e st1, body st = (Raise e, st1) /\ handler e st1 = (Ok a, st').
Proof.
  unfold try_except. destruct (body st) as [[x|e] st1]; intros H.
  - left. exact H.
  - right. exists e, st1. split; [reflexivity|exact H].
Qed.

Lemma ret_Ok_inv {A} (x a : A) (st st' : state) :
  ret x st = (Ok a, st') -> a = x.
Proof. unfold ret. intros H. inversion H. reflexivity. Qed.

(** Walk a returned run back through its binds, handlers and branches. *)
Ltac run_inv :=
  repeat match goal with
         | H : bind _ _ _ = (Ok _, _) |- _ =>
             apply bind_Ok_inv in H; destruct H as (? & ? & _ & H); cbv beta in H
         | H : try_except _ _ _ = (Ok _, _) |- _ =>
             apply try_except_Ok_inv in H;
             destruct H as [H | (? & ? & _ & H)]; cbv beta in H
         | H : (if ?b then _ else _) _ = (Ok _, _) |- _ => destruct b
         | H : ret _ _ = (Ok _, _) |- _ => apply ret_Ok_inv in H; subst
         end.

Ltac returned_response :=
  unfold success_response, error_response; auto with bridge.

Section Totality.

Variable rt : Runtime.

Lemma initialize_agent_returns_response (config : json) (st st' : state) (r : value) :
  initialize_agent rt config st = (Ok r, st') -> is_response r.
Proof.
  unfold initialize_agent. intros H.
  destruct (agno rt) as [lib|]; run_inv; returned_response.
Qed.

Lemma demo_completion_returns_response (messages : json) (st st' : state) (r : value) :
  demo_completion rt messages st = (Ok r, st') -> is_response r.
Proof.
  unfold demo_completion. intros H. run_inv; returned_response.
Qed.

Lemma generate_completion_returns_response
    (messages options : json) (st st' : state) (r : value) :
  generate_completion rt messages options st = (Ok r, st') -> is_response r.
Proof.
  unfold generate_completion. intros H.
  destruct (agno rt) as [lib|];
    [|eapply demo_completion_returns_response; eassumption].
  rewrite bind_get_agent in H.
  destruct (is_None (agent st));
    [eapply demo_completion_returns_response; eassumption|].
  run_inv; returned_response.
Qed.

Lemma execute_tool_returns_response
    (tool_name params : json) (st st' : state) (r : value) :
  execute_tool rt tool_name params st = (Ok r, st') -> is_response r.
Proof.
  unfold execute_tool. intros H.
  destruct (agno rt) as [lib|]; [|run_inv; returned_response].
  rewrite bind_get_agent in H.
  destruct (is_None (agent st)); run_inv; returned_response.
Qed.

(** The dispatch proper: the body of the [try] in [handle_request]. *)
Lemma handle_request_object (d : list (pystr * json)) (st : state) :
  exists body : M value,
    (forall st0 st1 r, body st0 = (Ok r, st1) -> is_response r)
    /\ handle_request rt (JDict d) st
       = try_except body
           (fun e =>
              ret (VDict
                     [(lit "success", VBool false);
                      (lit "error",
                       VStr (lit "Error processing "
                             ++ py_str rt
                                  (match dict_lookup (lit "action") d with
                                   | Some x => x
                                   | None => JNone
                                   end)
                             ++ lit ": " ++ exn_str e));
                      (lit "traceback", VStr (format_exc rt e))])) st.
Proof.
  unfold handle_request. rewrite !py_get_dict.
  set (action := match dict_lookup (lit "action") d with Some x => x | None => JNone end).
  set (data := match dict_lookup (lit "data") d with Some x => x | None => JDict [] end).
  eexists. split; [|reflexivity].
  intros st0 st1 r H.
  destruct (eq_str action "ping"); [run_inv; returned_response|].
  destruct (eq_str action "initialize_agent");
    [eapply initialize_agent_returns_response; eassumption|].
  destruct (eq_str action "generate_completion");
    [run_inv; eapply generate_completion_returns_response; eassumption|].
  destruct (eq_str action "execute_tool");
    [run_inv; eapply execute_tool_returns_response; eassumption|].
  run_inv; returned_response.
Qed.

(** A request that is not an object makes [handle_request] raise before
    its [try] is entered; it never reaches a handler. *)
Lemma handle_request_raises_on_non_object (request : json) (st : state) :
  (forall d, request <> JDict d) ->
  handle_request rt request st
  = (Raise (Exn AttributeError
              (lit "'" ++ type_name request ++ lit "' object has no attribute 'get'")),
     st).
Proof.
  intros H. destruct request; try reflexivity.
  exfalso. eapply H. reflexivity.
Qed.

Lemma handle_request_dispatch (d : list (pystr * json)) (st : state) :
  handle_request rt (JDict d) st
  = try_except
      (dispatch rt (config_field d "action" JNone)
         (config_field d "data" (JDict [])))
      (fun e =>
         ret (VDict
                [(lit "success", VBool false);
                 (lit "error",
                  VStr (lit "Error processing "
                        ++ py_str rt (config_field d "action" JNone)
                        ++ lit ": " ++ exn_str e));
                 (lit "traceback", VStr (format_exc rt e))])) st.
Proof. unfold handle_request. rewrite !py_get_dict. reflexivity. Qed.

Lemma dispatch_returns_response (action data : json) (st st' : state) (r : value) :
  dispatch rt action data st = (Ok r, st') -> is_response r.
Proof.
  unfold dispatch. intros H.
  destruct (eq_str action "ping"); [run_inv; returned_response|].
  destruct (eq_str action "initialize_agent");
    [eapply initialize_agent_returns_response; eassumption|].
  destruct (eq_str action "generate_completion");
    [run_inv; eapply generate_completion_returns_response; eassumption|].
  destruct (eq_str action "execute_tool");
    [run_inv; eapply execute_tool_returns_response; eassumption|].
  run_inv; returned_response.
Qed.

(** C1, as the code has it.  For every request that is a JSON object,
    [handle_request] returns a response and does not raise.  Whatever the
    body of its [try] raises, a handler's exception or a [data] that has
    no [get], is caught and comes back as the response with
    [success: False], the error [Error processing <action>: <message>] and
    the traceback; when the body returns, what it returns is the response,
    one of the bridge's response shapes.  For any other JSON value
    [handle_request] raises [AttributeError], from the [request.get] that
    precedes its [try]. *)
Theorem handle_request_total_on_objects (request : json) (st : state) :
  match request with
  | JDict d =>
      let action := config_field d "action" JNone in
      let data := config_field d "data" (JDict []) in
      match dispatch rt action data st with
      | (Ok response, st') =>
          handle_request rt request st = (Ok response, st')
          /\ is_response response
      | (Raise e, st') =>
          handle_request rt request st
          = (Ok (VDict
                   [(lit "success", VBool false);
                    (lit "error",
                     VStr (lit "Error processing " ++ py_str rt action
                           ++ lit ": " ++ exn_str e));
                    (lit "traceback", VStr (format_exc rt e))]),
             st')
      end
  | _ =>
      handle_request rt request st
      = (Raise (Exn AttributeError
                  (lit "'" ++ type_name request
                   ++ lit "' object has no attribute 'get'")),
         st)
  end.
Proof.
  destruct request as [| | | | | |d];
    try (apply handle_request_raises_on_non_object; discriminate).
  cbv zeta. rewrite handle_request_dispatch. unfold try_except.
  destruct (dispatch rt (config_field d "action" JNone)
              (config_field d "data" (JDict [])) st) as [[r|e] st1] eqn:Hrun.
  - split; [reflexivity|]. eapply dispatch_returns_response; eassumption.
  - reflexivity.
Qed.

(** X29.  A document that decodes to something other than an object is
    caught by [main]: the run still ends in one JSON response,
    [Unexpected error: '<type>' object has no attribute 'get'], and nothing
    is dispatched. *)
Lemma main_non_object (text : pystr) (request : json) (st : state) :
  json_loads rt text = Ok request ->
  (forall d, request <> JDict d) ->
  main rt (Ok text) st
  = (Ok (print (json_dumps
                  (JDict [(lit "success", JBool false);
                          (lit "error",
                           JStr (lit "Unexpected error: '" ++ type_name request
                                 ++ lit "' object has no attribute 'get'"))]))),
     st).
Proof.
  intros Hload Hreq. unfold main, try_except, bind, lift.
  rewrite Hload, (handle_request_raises_on_non_object _ _ Hreq). reflexivity.
Qed.

(** C7, as the code has it.  When [json.loads] rejects the text read
    from standard input with a [JSONDecodeError], the run writes exactly
    one line: the JSON object
    [{'success': False, 'error': 'Invalid JSON: <parser message>'}].
    Nothing is dispatched: the state is as before. *)
Theorem main_invalid_json (text : pystr) (e : exn) (st : state) :
  json_loads rt text = Raise e ->
  exn_kind e = JSONDecodeError ->
  main rt (Ok text) st
  = (Ok (print (json_dumps
                  (JDict [(lit "success", JBool false);
                          (lit "error", JStr (lit "Invalid JSON: " ++ exn_str e))]))),
     st).
Proof.
  intros Hload Hkind. unfold main, try_except, bind, lift.
  rewrite Hload. unfold is_JSONDecodeError. rewrite Hkind. reflexivity.
Qed.

End Totality.

(* ------------------------------------------------------------------ *)
(** ** The properties at work on sample inputs *)

(** C1 fails as worded.  The decoded document [[]] makes
    [handle_request] raise: it is not true that the dispatcher returns a response for every decoded JSON
    value. *)
Lemma handle_request_raises_on_list :
  handle_request demo_runtime (JList []) initial_state
  = (Raise (Exn AttributeError (lit "'list' object has no attribute 'get'")),
     initial_state)
  /\ ~ (forall request : json,
          exists response st',
            handle_request demo_runtime request initial_state = (Ok response, st')).
Proof.
  split; [reflexivity|].
  intros H. destruct (H (JList [])) as (response & st' & Hrun).
  discriminate Hrun.
Qed.

(** What the caller sees for that document: the top level's catch-all. *)
Example main_on_list :
  main demo_runtime (Ok (lit "[]")) initial_state
  = (Ok (lit "{" ++ [dquote] ++ lit "success" ++ [dquote] ++ lit ": false, "
         ++ [dquote] ++ lit "error" ++ [dquote] ++ lit ": " ++ [dquote]
         ++ lit "Unexpected error: 'list' object has no attribute 'get'"
         ++ [dquote] ++ lit "}" ++ [newline]),
     initial_state).
Proof. reflexivity. Qed.

Lemma ping_exact_response_witness :
  dict_lookup (lit "action") ping_request = Some (JStr (lit "ping"))
  /\ handle_request agno_runtime (JDict ping_request) agent_state
     = (Ok (VDict [(lit "success", VBool true); (lit "data", VBool true)]),
        agent_state).
Proof.
  split; [reflexivity|].
  apply (ping_exact_response agno_runtime ping_request agent_state).
  reflexivity.
Defined.

Lemma unknown_action_response_witness :
  handle_request demo_runtime (JDict shutdown_request) initial_state
  = (Ok (VDict [(lit "success", VBool false);
                (lit "error", VStr (lit "Unknown action: shutdown"))]),
     initial_state).
Proof.
  apply (unknown_action_response demo_runtime shutdown_request
           (JStr (lit "shutdown")) initial_state);
    [reflexivity | | | | ]; intros H; vm_compute in H; discriminate H.
Defined.

Lemma missing_action_response_witness :
  dict_lookup (lit "action") actionless_request = None
  /\ handle_request demo_runtime (JDict actionless_request) initial_state
     = (Ok (VDict [(lit "success", VBool false);
                   (lit "error", VStr (lit "Unknown action: None"))]),
        initial_state).
Proof.
  split; [reflexivity|].
  apply (missing_action_response demo_runtime actionless_request initial_state).
  reflexivity.
Defined.

Lemma initialize_agent_demo_defaults_witness :
  AGNO_AVAILABLE demo_runtime = false
  /\ initialize_agent demo_runtime (JDict []) initial_state
     = (Ok (VDict
              [(lit "success", VBool true);
               (lit "data",
                VDict [(lit "name", VStr (lit "Agent Nexus"));
                       (lit "description",
                        VStr (lit "Demo Agent (agno not available)"));
                       (lit "model", VStr (lit "demo-model"));
                       (lit "demo", VBool true)])]),
        initial_state).
Proof.
  split; [reflexivity|].
  apply (initialize_agent_demo_defaults demo_runtime initial_state).
  reflexivity.
Defined.

Lemma initialize_agent_constructor_raises_witness :
  exists st',
    initialize_agent agno_runtime (JDict [(lit "agentName", JStr [])]) agent_state
    = (Ok (VDict [(lit "success", VBool false);
                  (lit "error",
                   VStr (lit "Failed to initialize agent: name must not be empty"))]),
       st')
    /\ agent st' = VObj 1%N
    /\ calls st'
       = [CAgent (JStr [])
            (JStr (lit "An advanced cognitive agent architecture"))
            (JStr (lit "gpt-4"))].
Proof.
  apply (initialize_agent_constructor_raises agno_runtime sample_agno
           [(lit "agentName", JStr [])]
           (JStr [])
           (JStr (lit "An advanced cognitive agent architecture"))
           (JStr (lit "gpt-4"))
           (Exn OtherException (lit "name must not be empty"))
           agent_state);
    reflexivity.
Defined.

Lemma execute_tool_not_found_witness :
  execute_tool agno_runtime (JStr (lit "delete")) (JDict []) agent_state
  = (Ok (VDict [(lit "success", VBool false);
                (lit "error", VStr (lit "Tool not found: delete"))]),
     agent_state).
Proof.
  apply (execute_tool_not_found agno_runtime sample_agno
           (JStr (lit "delete")) (JDict []) agent_state);
    [reflexivity | discriminate | reflexivity].
Defined.



(** The cut at 50 characters, on a content of 52. *)
Example demo_completion_truncates :
  generate_completion demo_runtime
    (JList [message "user" "0123456789012345678901234567890123456789012345678901"])
    (JDict []) initial_state
  = (Ok (success_response
           (VStr (demo_completion_text
                    (lit "01234567890123456789012345678901234567890123456789")))),
     initial_state).
Proof. reflexivity. Qed.

Lemma unknown_role_is_omitted_witness :
  convert_message agno_runtime sample_agno (message "critic" "too long") agent_state
  = (Ok [], agent_state)
  /\ convert_messages agno_runtime sample_agno
       ([message "user" "hello"] ++ message "critic" "too long"
        :: [message "assistant" "hi"]) [] agent_state
     = convert_messages agno_runtime sample_agno
         ([message "user" "hello"] ++ [message "assistant" "hi"]) [] agent_state.
Proof.
  destruct (unknown_role_is_omitted agno_runtime sample_agno
              (message "critic" "too long")
              (JStr (lit "critic")) (JStr (lit "too long"))
              [message "user" "hello"] [message "assistant" "hi"])
    as (Hturn & Hloop & _ & _);
    [reflexivity | reflexivity | reflexivity
    | intros H; vm_compute in H; discriminate H
    | intros H; vm_compute in H; discriminate H
    | intros H; vm_compute in H; discriminate H
    | intros H; vm_compute in H; discriminate H
    | intros H; vm_compute in H; discriminate H
    | ].
  split; [apply Hturn | apply Hloop].
Defined.

(** The converted sequence for those three messages: two library
    messages, from two library calls. *)
Example convert_sample :
  convert_messages agno_runtime sample_agno
    [message "user" "hello"; message "critic" "too long"; message "assistant" "hi"]
    [] agent_state
  = (Ok [VObj 3%N; VObj 4%N],
     State (VObj 1%N)
       [CUserMessage (JStr (lit "hello")); CAssistantMessage (JStr (lit "hi"))]).
Proof. reflexivity. Qed.

Lemma main_invalid_json_witness :
  json_loads demo_runtime (lit "not valid json")
  = Raise (Exn JSONDecodeError (lit "Expecting value: line 1 column 1 (char 0)"))
  /\ main demo_runtime (Ok (lit "not valid json")) initial_state
     = (Ok (print (json_dumps
                     (JDict [(lit "success", JBool false);
                             (lit "error",
                              JStr (lit "Invalid JSON: Expecting value: line 1 column 1 (char 0)"))]))),
        initial_state).
Proof.
  split; [reflexivity|].
  apply (main_invalid_json demo_runtime (lit "not valid json")
           (Exn JSONDecodeError (lit "Expecting value: line 1 column 1 (char 0)"))
           initial_state);
    reflexivity.
Defined.

(** The line written for that input. *)
Example main_invalid_json_output :
  main demo_runtime (Ok (lit "not valid json")) initial_state
  = (Ok (lit "{" ++ [dquote] ++ lit "success" ++ [dquote] ++ lit ": false, "
         ++ [dquote] ++ lit "error" ++ [dquote] ++ lit ": " ++ [dquote]
         ++ lit "Invalid JSON: Expecting value: line 1 column 1 (char 0)"
         ++ [dquote] ++ lit "}" ++ [newline]),
     initial_state).
Proof. reflexivity. Qed.

(** C7 fails as worded.  One hundred thousand opening brackets are no
    JSON document, yet the parser gives up on them with a recursion error,
    not a [JSONDecodeError], and the run answers [Unexpected error: ...]:
    it is not true that every text the parser rejects is answered
    [Invalid JSON: ...]. *)
Lemma main_invalid_json_unexpected :
  main deep_runtime (Ok deep_text) initial_state
  = (Ok (lit "{" ++ quoted "success" ++ lit ": false, " ++ quoted "error"
         ++ lit ": "
         ++ quoted "Unexpected error: maximum recursion depth exceeded while decoding a JSON array from a unicode string"
         ++ lit "}" ++ [newline]),
     initial_state)
  /\ ~ (forall (rt : Runtime) (text : pystr) (e : exn) (st : state),
          json_loads rt text = Raise e ->
          main rt (Ok text) st
          = (Ok (print (json_dumps
                          (JDict [(lit "success", JBool false);
                                  (lit "error",
                                   JStr (lit "Invalid JSON: " ++ exn_str e))]))),
             st)).
Proof.
  assert (Hload : json_loads deep_runtime deep_text
                  = Raise (Exn OtherException
                             (lit "maximum recursion depth exceeded while decoding a JSON array from a unicode string")))
    by (vm_compute; reflexivity).
  assert (Hrun : main deep_runtime (Ok deep_text) initial_state
                 = (Ok (lit "{" ++ quoted "success" ++ lit ": false, "
                        ++ quoted "error" ++ lit ": "
                        ++ quoted "Unexpected error: maximum recursion depth exceeded while decoding a JSON array from a unicode string"
                        ++ lit "}" ++ [newline]),
                    initial_state)).
  { unfold main, try_except, bind, lift. rewrite Hload. reflexivity. }
  split; [exact Hrun|].
  intros H. specialize (H deep_runtime deep_text _ initial_state Hload).
  rewrite Hrun in H. vm_compute in H. discriminate H.
Qed.

(** [NaN] is no JSON either, but the parser reads it as a float, and it is
    the dispatcher that fails on it. *)
Example main_on_nan :
  main deep_runtime (Ok (lit "NaN")) initial_state
  = (Ok (lit "{" ++ quoted "success" ++ lit ": false, " ++ quoted "error"
         ++ lit ": "
         ++ quoted "Unexpected error: 'float' object has no attribute 'get'"
         ++ lit "}" ++ [newline]),
     initial_state).
Proof. vm_compute. reflexivity. Qed.

(* ------------------------------------------------------------------ *)
(** ** Beyond the claims: agent initialization *)

Lemma bind_Ok {A B} (m : M A) (k : A -> M B) (st st1 : state) (a : A) :
  m st = (Ok a, st1) -> bind m k st = k a st1.
Proof. intros H. unfold bind. rewrite H. reflexivity. Qed.

Lemma bind_Raise {A B} (m : M A) (k : A -> M B) (st st1 : state) (e : exn) :
  m st = (Raise e, st1) -> bind m k st = (Raise e, st1).
Proof. intros H. unfold bind. rewrite H. reflexivity. Qed.

Lemma py_get_non_dict (v : json) (key : string) (default : json) :
  (forall d, v <> JDict d) ->
  py_get v key default
  = Raise (Exn AttributeError
             (lit "'" ++ type_name v ++ lit "' object has no attribute 'get'")).
Proof.
  intros H. destruct v; try reflexivity. exfalso. eapply H. reflexivity.
Qed.

Section MoreInitialize.

Variable rt : Runtime.

(** The library path of [initialize_agent] on a dict, step by step. *)
Lemma initialize_agent_with_library
    (lib : AgnoLib) (d : list (pystr * json)) (st : state) :
  agno rt = Some lib ->
  initialize_agent rt (JDict d) st
  = let c := CAgent (agent_name d) (agent_description d) (agent_model d) in
    let failed e :=
      error_response (lit "Failed to initialize agent: " ++ exn_str e) in
    match Agent lib (agent_name d) (agent_description d) (agent_model d) with
    | Raise e => (Ok (failed e), after_call st c)
    | Ok a =>
        let st' := State a (calls st ++ [c]) in
        match getattr lib a (lit "name") with
        | Raise e => (Ok (failed e), st')
        | Ok n =>
            match getattr lib a (lit "description") with
            | Raise e => (Ok (failed e), st')
            | Ok dsc =>
                match getattr lib a (lit "model") with
                | Raise e => (Ok (failed e), st')
                | Ok m => (Ok (success_response (agent_info n dsc m false)), st')
                end
            end
        end
    end.
Proof.
  intros Hlib. unfold initialize_agent. rewrite Hlib.
  unfold try_except, bind, lift, lib_call, set_agent, get_agent, ret.
  rewrite !py_get_dict.
  fold (agent_name d) (agent_description d) (agent_model d).
  unfold agent_name, agent_description, agent_model, config_field, after_call.
  cbv zeta.
  destruct (Agent lib _ _ _) as [a|e]; [|reflexivity].
  cbn [agent calls].
  destruct (getattr lib a (lit "name")); [|reflexivity].
  destruct (getattr lib a (lit "description")); [|reflexivity].
  destruct (getattr lib a (lit "model")); reflexivity.
Qed.

(** Once the constructor has returned, the handle holds the new instance,
    whatever the response says. *)
Lemma initialize_agent_constructed
    (lib : AgnoLib) (d : list (pystr * json)) (a : value) (st : state) :
  agno rt = Some lib ->
  Agent lib (agent_name d) (agent_description d) (agent_model d) = Ok a ->
  exists r,
    initialize_agent rt (JDict d) st
    = (Ok r,
       State a (calls st
                ++ [CAgent (agent_name d) (agent_description d) (agent_model d)])).
Proof.
  intros Hlib Ha. rewrite (initialize_agent_with_library lib d st Hlib).
  cbv zeta. rewrite Ha.
  destruct (getattr lib a (lit "name")); [|eexists; reflexivity].
  destruct (getattr lib a (lit "description")); [|eexists; reflexivity].
  destruct (getattr lib a (lit "model")); eexists; reflexivity.
Qed.

(** X1.  With the library, when the constructor returns an instance and
    the instance reports its name, description and model, the handle is
    replaced by that instance and the response describes what the
    instance reports (not what the config asked for), with [demo: False];
    the constructor is the one library call made. *)
Theorem initialize_agent_replaces_handle
    (lib : AgnoLib) (d : list (pystr * json)) (a n dsc m : value) (st : state) :
  agno rt = Some lib ->
  Agent lib (agent_name d) (agent_description d) (agent_model d) = Ok a ->
  getattr lib a (lit "name") = Ok n ->
  getattr lib a (lit "description") = Ok dsc ->
  getattr lib a (lit "model") = Ok m ->
  initialize_agent rt (JDict d) st
  = (Ok (VDict
           [(lit "success", VBool true);
            (lit "data",
             VDict [(lit "name", n); (lit "description", dsc);
                    (lit "model", m); (lit "demo", VBool false)])]),
     State a (calls st
              ++ [CAgent (agent_name d) (agent_description d) (agent_model d)])).
Proof.
  intros Hlib Ha Hn Hd Hm.
  rewrite (initialize_agent_with_library lib d st Hlib).
  cbv zeta. rewrite Ha, Hn, Hd, Hm. reflexivity.
Qed.

(** X2.  With the library, when the constructor returns an instance but
    reading the instance's name raises, the response is the failure
    [Failed to initialize agent: <message>] and yet the handle already
    holds the new instance: the assignment came first. *)
Theorem initialize_agent_failure_after_assignment
    (lib : AgnoLib) (d : list (pystr * json)) (a : value) (e : exn) (st : state) :
  agno rt = Some lib ->
  Agent lib (agent_name d) (agent_description d) (agent_model d) = Ok a ->
  getattr lib a (lit "name") = Raise e ->
  initialize_agent rt (JDict d) st
  = (Ok (VDict [(lit "success", VBool false);
                (lit "error",
                 VStr (lit "Failed to initialize agent: " ++ exn_str e))]),
     State a (calls st
              ++ [CAgent (agent_name d) (agent_description d) (agent_model d)])).
Proof.
  intros Hlib Ha Hn.
  rewrite (initialize_agent_with_library lib d st Hlib).
  cbv zeta. rewrite Ha, Hn. reflexivity.
Qed.

(** X3.  Without the library, [initialize_agent] on any dict echoes the
    fields the config provides and fills in the demo defaults for the
    others, with [demo: True]; the state is as before. *)
Theorem initialize_agent_demo_echo (d : list (pystr * json)) (st : state) :
  AGNO_AVAILABLE rt = false ->
  initialize_agent rt (JDict d) st
  = (Ok (VDict
           [(lit "success", VBool true);
            (lit "data",
             VDict
               [(lit "name",
                 of_json (config_field d "agentName" (JStr (lit "Agent Nexus"))));
                (lit "description",
                 of_json (config_field d "description"
                            (JStr (lit "Demo Agent (agno not available)"))));
                (lit "model",
                 of_json (config_field d "modelName" (JStr (lit "demo-model"))));
                (lit "demo", VBool true)])]),
     st).
Proof.
  intros H. apply AGNO_AVAILABLE_false in H.
  unfold initialize_agent. rewrite H.
  unfold bind, lift. rewrite !py_get_dict. reflexivity.
Qed.


(** X5.  Without the library the same config makes [initialize_agent]
    raise, and it is the dispatcher that answers: [Error processing
    initialize_agent: ...] with a traceback. *)
Theorem initialize_agent_demo_non_dict
    (d : list (pystr * json)) (data : json) (st : state) :
  AGNO_AVAILABLE rt = false ->
  dict_lookup (lit "action") d = Some (JStr (lit "initialize_agent")) ->
  dict_lookup (lit "data") d = Some data ->
  (forall c, data <> JDict c) ->
  initialize_agent rt data st
  = (Raise (Exn AttributeError
              (lit "'" ++ type_name data ++ lit "' object has no attribute 'get'")),
     st)
  /\ handle_request rt (JDict d) st
     = (Ok (VDict
              [(lit "success", VBool false);
               (lit "error",
                VStr (lit "Error processing initialize_agent: '" ++ type_name data
                      ++ lit "' object has no attribute 'get'"));
               (lit "traceback",
                VStr (format_exc rt
                        (Exn AttributeError
                           (lit "'" ++ type_name data
                            ++ lit "' object has no attribute 'get'"))))]),
        st).
Proof.
  intros H Hact Hdata Hnd. apply AGNO_AVAILABLE_false in H.
  assert (Hinit : initialize_agent rt data st
                  = (Raise (Exn AttributeError
                              (lit "'" ++ type_name data
                               ++ lit "' object has no attribute 'get'")), st)).
  { unfold initialize_agent. rewrite H. unfold bind, lift.
    rewrite (py_get_non_dict _ _ _ Hnd). reflexivity. }
  split; [exact Hinit|].
  unfold handle_request. rewrite !py_get_dict, Hact, Hdata.
  unfold bind at 1 2. unfold lift at 1 2. cbv beta iota.
  unfold try_except. cbn [eq_str]. 
  replace (pystr_eqb (lit "initialize_agent") (lit "ping")) with false by reflexivity.
  replace (pystr_eqb (lit "initialize_agent") (lit "initialize_agent")) with true
    by reflexivity.
  cbv iota. rewrite Hinit. reflexivity.
Qed.

(** X6.  Initializing twice overwrites: after two calls whose
    constructors return, the handle holds the second instance, and the
    library has seen both constructor calls, in order. *)
Theorem initialize_agent_twice
    (lib : AgnoLib) (d1 d2 : list (pystr * json)) (a1 a2 : value) (st : state) :
  agno rt = Some lib ->
  Agent lib (agent_name d1) (agent_description d1) (agent_model d1) = Ok a1 ->
  Agent lib (agent_name d2) (agent_description d2) (agent_model d2) = Ok a2 ->
  exists r1 r2,
    (r1 <- initialize_agent rt (JDict d1);;
     r2 <- initialize_agent rt (JDict d2);;
     ret (r1, r2)) st
    = (Ok (r1, r2),
       State a2
         (calls st
          ++ [CAgent (agent_name d1) (agent_description d1) (agent_model d1);
              CAgent (agent_name d2) (agent_description d2) (agent_model d2)])).
Proof.
  intros Hlib H1 H2.
  destruct (initialize_agent_constructed lib d1 a1 st Hlib H1) as (r1 & Hr1).
  destruct (initialize_agent_constructed lib d2 a2
              (State a1 (calls st
                         ++ [CAgent (agent_name d1) (agent_description d1)
                               (agent_model d1)])) Hlib H2) as (r2 & Hr2).
  exists r1, r2.
  rewrite (bind_Ok _ _ _ _ _ Hr1). rewrite (bind_Ok _ _ _ _ _ Hr2).
  cbn [calls]. rewrite <- app_assoc. reflexivity.
Qed.

End MoreInitialize.

(* ------------------------------------------------------------------ *)
(** ** Beyond the claims: what a run leaves alone *)

Lemma keeps_agent_ret {A} (a : A) : keeps_agent (ret a).
Proof. intros st. reflexivity. Qed.

Lemma keeps_agent_lift {A} (r : result A) : keeps_agent (lift r).
Proof. intros st. reflexivity. Qed.

Lemma keeps_agent_get_agent : keeps_agent get_agent.
Proof. intros st. reflexivity. Qed.

Lemma keeps_agent_lib_call {A} (c : call) (r : result A) : keeps_agent (lib_call c r).
Proof. intros st. reflexivity. Qed.

Lemma keeps_agent_bind {A B} (m : M A) (k : A -> M B) :
  keeps_agent m -> (forall a, keeps_agent (k a)) -> keeps_agent (bind m k).
Proof.
  intros Hm Hk st. unfold bind. specialize (Hm st).
  destruct (m st) as [[a|e] st1]; simpl in *.
  - rewrite Hk. exact Hm.
  - exact Hm.
Qed.

Lemma keeps_agent_try_except {A} (body : M A) (handler : exn -> M A) :
  keeps_agent body -> (forall e, keeps_agent (handler e)) ->
  keeps_agent (try_except body handler).
Proof.
  intros Hb Hh st. unfold try_except. specialize (Hb st).
  destruct (body st) as [[a|e] st1]; simpl in *.
  - exact Hb.
  - rewrite Hh. exact Hb.
Qed.

Lemma keeps_agent_if {A} (b : bool) (m1 m2 : M A) :
  keeps_agent m1 -> keeps_agent m2 -> keeps_agent (if b then m1 else m2).
Proof. destruct b; auto. Qed.

Lemma keeps_state_ret {A} (a : A) : keeps_state (ret a).
Proof. intros st. reflexivity. Qed.

Lemma keeps_state_lift {A} (r : result A) : keeps_state (lift r).
Proof. intros st. reflexivity. Qed.

Lemma keeps_state_bind {A B} (m : M A) (k : A -> M B) :
  keeps_state m -> (forall a, keeps_state (k a)) -> keeps_state (bind m k).
Proof.
  intros Hm Hk st. unfold bind. specialize (Hm st).
  destruct (m st) as [[a|e] st1]; simpl in *; subst.
  - apply Hk.
  - reflexivity.
Qed.

Lemma keeps_state_try_except {A} (body : M A) (handler : exn -> M A) :
  keeps_state body -> (forall e, keeps_state (handler e)) ->
  keeps_state (try_except body handler).
Proof.
  intros Hb Hh st. unfold try_except. specialize (Hb st).
  destruct (body st) as [[a|e] st1]; simpl in *; subst.
  - reflexivity.
  - apply Hh.
Qed.

Lemma keeps_state_if {A} (b : bool) (m1 m2 : M A) :
  keeps_state m1 -> keeps_state m2 -> keeps_state (if b then m1 else m2).
Proof. destruct b; auto. Qed.

Create HintDb keeps.
#[local] Hint Resolve keeps_agent_ret keeps_agent_lift keeps_agent_get_agent
  keeps_agent_lib_call keeps_agent_bind keeps_agent_try_except keeps_agent_if
  keeps_state_ret keeps_state_lift keeps_state_bind keeps_state_try_except
  keeps_state_if : keeps.

Section Unchanged.

Variable rt : Runtime.

Lemma convert_message_keeps_agent (lib : AgnoLib) (msg : json) :
  keeps_agent (convert_message rt lib msg).
Proof. unfold convert_message. auto 20 with keeps. Qed.

Lemma convert_messages_keeps_agent (lib : AgnoLib) (items : list json) :
  forall acc, keeps_agent (convert_messages rt lib items acc).
Proof.
  induction items as [|m rest IH]; intros acc; simpl.
  - apply keeps_agent_ret.
  - apply keeps_agent_bind; [apply convert_message_keeps_agent|].
    intros new. apply IH.
Qed.

Lemma demo_completion_keeps_state (messages : json) :
  keeps_state (demo_completion rt messages).
Proof. unfold demo_completion. auto 20 with keeps. Qed.

Lemma keeps_state_keeps_agent {A} (m : M A) : keeps_state m -> keeps_agent m.
Proof. intros H st. rewrite H. reflexivity. Qed.

Lemma generate_completion_keeps_agent (messages options : json) :
  keeps_agent (generate_completion rt messages options).
Proof.
  unfold generate_completion.
  destruct (agno rt) as [lib|];
    [|apply keeps_state_keeps_agent, demo_completion_keeps_state].
  apply keeps_agent_bind; [apply keeps_agent_get_agent|]. intros a.
  apply keeps_agent_if;
    [apply keeps_state_keeps_agent, demo_completion_keeps_state|].
  apply keeps_agent_try_except; [|auto with keeps].
  apply keeps_agent_bind; [auto with keeps|]. intros items.
  apply keeps_agent_bind; [apply convert_messages_keeps_agent|]. intros msgs.
  auto 20 with keeps.
Qed.

Lemma execute_tool_keeps_agent (tool_name params : json) :
  keeps_agent (execute_tool rt tool_name params).
Proof.
  unfold execute_tool.
  destruct (agno rt) as [lib|]; [|apply keeps_agent_ret].
  apply keeps_agent_bind; [apply keeps_agent_get_agent|]. intros a.
  apply keeps_agent_if; [apply keeps_agent_ret|].
  apply keeps_agent_try_except; [|auto with keeps].
  apply keeps_agent_bind; [auto with keeps|]. intros present.
  apply keeps_agent_if; auto 20 with keeps.
Qed.

(** X7.  Only [initialize_agent] writes the handle: whatever the
    request (object or not, well formed or not) and whatever the library
    does, a request whose action is not [initialize_agent] leaves the
    [agent] variable holding what it held. *)
Theorem handle_request_keeps_agent (request : json) (st : state) :
  py_get request "action" JNone <> Ok (JStr (lit "initialize_agent")) ->
  agent (snd (handle_request rt request st)) = agent st.
Proof.
  intros Hne. unfold handle_request.
  destruct (py_get request "action" JNone) as [action|e0];
    [|rewrite (bind_Raise (lift (Raise e0)) _ st st e0) by reflexivity;
      reflexivity].
  rewrite (bind_Ok (lift (Ok action)) _ st st action) by reflexivity.
  assert (Hact : action <> JStr (lit "initialize_agent")) by congruence.
  destruct (py_get request "data" (JDict [])) as [data|e].
  - rewrite (bind_Ok (lift (Ok data)) _ st st data) by reflexivity.
    rewrite (eq_str_false _ _ Hact).
    apply keeps_agent_try_except; [|auto with keeps].
    apply keeps_agent_if; [apply keeps_agent_ret|].
    apply keeps_agent_if.
    { apply keeps_agent_bind; [apply keeps_agent_lift|]. intros messages.
      apply keeps_agent_bind; [apply keeps_agent_lift|]. intros options.
      apply generate_completion_keeps_agent. }
    apply keeps_agent_if; [|apply keeps_agent_ret].
    apply keeps_agent_bind; [apply keeps_agent_lift|]. intros tool_name.
    apply keeps_agent_bind; [apply keeps_agent_lift|]. intros params.
    apply execute_tool_keeps_agent.
  - rewrite (bind_Raise (lift (Raise e)) _ st st e) by reflexivity.
    reflexivity.
Qed.

(** X8.  Without the library nothing is ever written: for every request,
    object or not, [handle_request] leaves the handle and the record of
    library calls exactly as they were. *)
Theorem handle_request_demo_keeps_state (request : json) (st : state) :
  AGNO_AVAILABLE rt = false ->
  snd (handle_request rt request st) = st.
Proof.
  intros H. apply AGNO_AVAILABLE_false in H. revert st.
  change (keeps_state (handle_request rt request)).
  unfold handle_request, initialize_agent, generate_completion, execute_tool.
  rewrite H.
  pose proof demo_completion_keeps_state.
  auto 30 with keeps.
Qed.

End Unchanged.

(* ------------------------------------------------------------------ *)
(** ** Beyond the claims: completion generation *)

Section MoreCompletion.

Variable rt : Runtime.

(** With the library and an agent, [generate_completion] is its [try]
    statement. *)
Lemma generate_completion_with_agent
    (lib : AgnoLib) (messages options : json) (st : state) :
  agno rt = Some lib ->
  agent st <> VNone ->
  generate_completion rt messages options st
  = try_except
      (items <- lift (py_iter messages);;
       agno_messages <- convert_messages rt lib items [];;
       a' <- get_agent;;
       temperature <- lift (py_get options "temperature" (JFloat (lit "0.7")));;
       max_tokens <- lift (py_get options "maxTokens" (JInt 1000));;
       stop <- lift (py_get options "stop" JNone);;
       response <-
         lib_call (CGenerate a' agno_messages temperature max_tokens stop)
           (generate lib a' agno_messages temperature max_tokens stop);;
       content <- lift (getattr lib response (lit "content"));;
       ret (success_response content))
      (fun e =>
         ret (error_response (lit "Failed to generate completion: " ++ exn_str e)))
      st.
Proof.
  intros Hlib Hagent. unfold generate_completion. rewrite Hlib.
  rewrite bind_get_agent, (is_None_false _ Hagent). reflexivity.
Qed.

Lemma convert_messages_agent
    (lib : AgnoLib) (items : list json) (acc : list value) (st : state) :
  agent (snd (convert_messages rt lib items acc st)) = agent st.
Proof. apply convert_messages_keeps_agent. Qed.

(** The loop over a concatenation is the loop over the first part, then
    over the second from what the first built. *)
Lemma convert_messages_app (lib : AgnoLib) (pre post : list json) :
  forall (acc : list value) (st : state),
    convert_messages rt lib (pre ++ post) acc st
    = (acc' <- convert_messages rt lib pre acc;;
       convert_messages rt lib post acc') st.
Proof.
  induction pre as [|p pre IH]; intros acc st; simpl.
  - reflexivity.
  - unfold bind at 1 2 3.
    destruct (convert_message rt lib p st) as [[new|e] st1]; [|reflexivity].
    rewrite IH. reflexivity.
Qed.

(** X9.  With the library and an agent, when the messages convert and the
    library generates, [generate_completion] answers success with the
    [content] of what the library returned.  [agent.generate] is called
    once, after the conversions, on the converted messages and on the
    three options, each defaulted when absent (0.7, 1000, None). *)
Theorem generate_completion_success
    (lib : AgnoLib) (items : list json) (o : list (pystr * json))
    (msgs : list value) (response content : value) (st st1 : state) :
  agno rt = Some lib ->
  agent st <> VNone ->
  convert_messages rt lib items [] st = (Ok msgs, st1) ->
  generate lib (agent st) msgs (option_temperature o) (option_max_tokens o)
    (option_stop o) = Ok response ->
  getattr lib response (lit "content") = Ok content ->
  generate_completion rt (JList items) (JDict o) st
  = (Ok (VDict [(lit "success", VBool true); (lit "data", content)]),
     after_call st1
       (CGenerate (agent st) msgs (option_temperature o) (option_max_tokens o)
          (option_stop o))).
Proof.
  intros Hlib Hagent Hconv Hgen Hcontent.
  rewrite (generate_completion_with_agent lib _ _ st Hlib Hagent).
  pose proof (convert_messages_agent lib items [] st) as Hkeep.
  rewrite Hconv in Hkeep. simpl in Hkeep.
  unfold try_except, bind, lift, lib_call, get_agent, ret. cbn [py_iter].
  rewrite Hconv, !py_get_dict.
  fold (option_temperature o) (option_max_tokens o) (option_stop o).
  unfold option_temperature, option_max_tokens, option_stop, config_field in *.
  rewrite Hkeep, Hgen, Hcontent. unfold after_call. rewrite Hkeep. reflexivity.
Qed.

(** X10.  When [agent.generate] raises, the answer is the failure
    [Failed to generate completion: <message>]; the call is on record and
    the handle is as before. *)
Theorem generate_completion_generate_raises
    (lib : AgnoLib) (items : list json) (o : list (pystr * json))
    (msgs : list value) (e : exn) (st st1 : state) :
  agno rt = Some lib ->
  agent st <> VNone ->
  convert_messages rt lib items [] st = (Ok msgs, st1) ->
  generate lib (agent st) msgs (option_temperature o) (option_max_tokens o)
    (option_stop o) = Raise e ->
  generate_completion rt (JList items) (JDict o) st
  = (Ok (VDict [(lit "success", VBool false);
                (lit "error",
                 VStr (lit "Failed to generate completion: " ++ exn_str e))]),
     after_call st1
       (CGenerate (agent st) msgs (option_temperature o) (option_max_tokens o)
          (option_stop o))).
Proof.
  intros Hlib Hagent Hconv Hgen.
  rewrite (generate_completion_with_agent lib _ _ st Hlib Hagent).
  pose proof (convert_messages_agent lib items [] st) as Hkeep.
  rewrite Hconv in Hkeep. simpl in Hkeep.
  unfold try_except, bind, lift, lib_call, get_agent, ret. cbn [py_iter].
  rewrite Hconv, !py_get_dict.
  unfold option_temperature, option_max_tokens, option_stop, config_field in *.
  rewrite Hkeep, Hgen. unfold after_call. rewrite Hkeep. reflexivity.
Qed.

(** X11.  With the library and an agent, [generate_completion] never
    raises, whatever it is given (messages that are no list, items that
    are no objects, options that are no dict) and whatever the library
    does: it answers success, or a failure whose error starts with
    [Failed to generate completion: ]. *)
Theorem generate_completion_never_raises
    (lib : AgnoLib) (messages options : json) (st : state) :
  agno rt = Some lib ->
  agent st <> VNone ->
  exists (r : value) (st' : state),
    generate_completion rt messages options st = (Ok r, st')
    /\ ((exists content,
           r = VDict [(lit "success", VBool true); (lit "data", content)])
        \/ (exists e,
              r = VDict [(lit "success", VBool false);
                         (lit "error",
                          VStr (lit "Failed to generate completion: "
                                ++ exn_str e))])).
Proof.
  intros Hlib Hagent.
  rewrite (generate_completion_with_agent lib _ _ st Hlib Hagent).
  unfold try_except.
  match goal with |- context [let (_, _) := ?b st in _] => 
    destruct (b st) as [[r|e] st1] eqn:Hrun end.
  - exists r, st1. split; [reflexivity|]. left.
    run_inv. eexists. reflexivity.
  - eexists _, st1. split; [reflexivity|]. right. exists e. reflexivity.
Qed.

(** X12.  A message without a [content] field fails the whole request,
    whatever its role (a role the loop has no branch for included): the
    answer is [Failed to generate completion: 'content'], the messages
    before it have been converted, and [agent.generate] is not called. *)
Theorem generate_completion_missing_content
    (lib : AgnoLib) (pre post : list json) (d : list (pystr * json))
    (role options : json) (acc : list value) (st st1 : state) :
  agno rt = Some lib ->
  agent st <> VNone ->
  convert_messages rt lib pre [] st = (Ok acc, st1) ->
  dict_lookup (lit "role") d = Some role ->
  dict_lookup (lit "content") d = None ->
  generate_completion rt (JList (pre ++ JDict d :: post)) options st
  = (Ok (VDict [(lit "success", VBool false);
                (lit "error",
                 VStr (lit "Failed to generate completion: 'content'"))]),
     st1).
Proof.
  intros Hlib Hagent Hpre Hrole Hcontent.
  rewrite (generate_completion_with_agent lib _ _ st Hlib Hagent).
  unfold try_except.
  rewrite (bind_Ok (lift (py_iter (JList (pre ++ JDict d :: post)))) _ st st
             (pre ++ JDict d :: post)) by reflexivity.
  assert (Hloop : convert_messages rt lib (pre ++ JDict d :: post) [] st
                  = (Raise (Exn KeyError (lit "'content'")), st1)).
  { rewrite convert_messages_app. rewrite (bind_Ok _ _ _ _ _ Hpre).
    simpl. unfold convert_message.
    unfold bind, lift. cbn [py_getitem]. rewrite Hrole, Hcontent. reflexivity. }
  rewrite (bind_Raise _ _ _ _ _ Hloop). reflexivity.
Qed.

End MoreCompletion.

Section MoreConversion.

Variable rt : Runtime.

Lemma first_user_content_skips (pre rest : list json) :
  Forall is_other_message pre ->
  first_user_content rt (pre ++ rest) = first_user_content rt rest.
Proof.
  induction 1 as [|m pre Hm _ IH]; [reflexivity|].
  destruct Hm as (d & role & content & -> & Hrole & Hne & _).
  simpl. rewrite Hrole. simpl. rewrite (pystr_eqb_neq _ _ Hne). exact IH.
Qed.


(** X14.  The demo path has no [try] of its own: an object without a
    [role] field, met before any user message, makes [generate_completion]
    raise [KeyError]. *)
Theorem generate_completion_demo_raises
    (pre post : list json) (d : list (pystr * json)) (options : json) (st : state) :
  AGNO_AVAILABLE rt = false \/ agent st = VNone ->
  Forall is_other_message pre ->
  dict_lookup (lit "role") d = None ->
  generate_completion rt (JList (pre ++ JDict d :: post)) options st
  = (Raise (Exn KeyError (lit "'role'")), st).
Proof.
  intros Hdemo Hpre Hrole.
  assert (Hrun : demo_completion rt (JList (pre ++ JDict d :: post)) st
                 = (Raise (Exn KeyError (lit "'role'")), st)).
  { unfold demo_completion, bind, lift. cbn [py_iter].
    rewrite (first_user_content_skips _ _ Hpre). simpl.
    rewrite Hrole. reflexivity. }
  unfold generate_completion.
  destruct (agno rt) as [lib|] eqn:Hlib; [|exact Hrun].
  destruct Hdemo as [Hav|Hnone].
  - apply AGNO_AVAILABLE_false in Hav. congruence.
  - rewrite bind_get_agent, Hnone. exact Hrun.
Qed.

Lemma convert_message_count
    (lib : AgnoLib) (m : json) (st st' : state) (new : list value) :
  convert_message rt lib m st = (Ok new, st') ->
  length new = if has_known_role rt m then 1 else 0.
Proof.
  unfold convert_message, has_known_role, bind, lift, lib_call, ret.
  destruct (py_getitem rt m "role") as [role|]; [|discriminate].
  destruct (py_getitem rt m "content") as [content|]; [|discriminate].
  destruct (eq_str role "system");
    [destruct (SystemMessage lib content); intros H; inversion H; reflexivity|].
  destruct (eq_str role "user");
    [destruct (UserMessage lib content); intros H; inversion H; reflexivity|].
  destruct (eq_str role "assistant");
    [destruct (AssistantMessage lib content); intros H; inversion H; reflexivity|].
  destruct (eq_str role "function" || eq_str role "tool") eqn:Hft.
  - apply orb_true_iff in Hft.
    destruct (py_get m "name" (JStr (lit "function"))) as [name|]; [|discriminate].
    destruct (FunctionMessage lib content name); intros H; inversion H.
    destruct Hft as [-> | ->]; simpl; [reflexivity|].
    destruct (eq_str role "function"); reflexivity.
  - apply orb_false_iff in Hft. destruct Hft as [-> ->].
    intros H; inversion H. reflexivity.
Qed.

(** X15.  When the conversion loop returns, it has produced one library
    message for each item whose role is [system], [user], [assistant],
    [function] or [tool], and none for the others: the converted sequence
    is as long as the number of such items. *)
Theorem convert_messages_count (lib : AgnoLib) (items : list json) :
  forall (acc out : list value) (st st' : state),
    convert_messages rt lib items acc st = (Ok out, st') ->
    length out = length acc + length (filter (has_known_role rt) items).
Proof.
  induction items as [|m rest IH]; intros acc out st st' H; simpl in *.
  - inversion H. lia.
  - unfold bind in H.
    destruct (convert_message rt lib m st) as [[new|e] st1] eqn:Hm; [|discriminate].
    apply IH in H. apply convert_message_count in Hm.
    rewrite length_app in H.
    destruct (has_known_role rt m); simpl; lia.
Qed.

(** X16.  The roles [function] and [tool] both become a library function
    message: one call to [agno.FunctionMessage] with the content and with
    the message's [name], or ['function'] when it has none. *)
Theorem convert_message_function_or_tool
    (lib : AgnoLib) (d : list (pystr * json)) (role content : json) (st : state) :
  dict_lookup (lit "role") d = Some role ->
  role = JStr (lit "function") \/ role = JStr (lit "tool") ->
  dict_lookup (lit "content") d = Some content ->
  convert_message rt lib (JDict d) st
  = (match FunctionMessage lib content
             (config_field d "name" (JStr (lit "function"))) with
     | Ok m => Ok [m]
     | Raise e => Raise e
     end,
     after_call st
       (CFunctionMessage content (config_field d "name" (JStr (lit "function"))))).
Proof.
  intros Hrole Hft Hcontent.
  unfold convert_message, bind, lift, lib_call, ret. cbn [py_getitem].
  rewrite Hrole, Hcontent, py_get_dict. unfold config_field, after_call.
  destruct Hft as [-> | ->]; cbn [eq_str];
    repeat match goal with
           | |- context [pystr_eqb ?a ?b] =>
               let v := eval vm_compute in (pystr_eqb a b) in
               change (pystr_eqb a b) with v
           end;
    cbv iota; cbn [orb];
    destruct (FunctionMessage lib content _); reflexivity.
Qed.

End MoreConversion.

(* ------------------------------------------------------------------ *)
(** ** Beyond the claims: tool execution *)

Section MoreTools.

Variable rt : Runtime.

Lemma execute_tool_with_agent
    (lib : AgnoLib) (tool_name params : json) (st : state) :
  agno rt = Some lib ->
  agent st <> VNone ->
  execute_tool rt tool_name params st
  = try_except
      (present <- lift (tools_contains lib (agent st) tool_name);;
       if negb present then
         ret (error_response (lit "Tool not found: " ++ py_str rt tool_name))
       else
         a' <- get_agent;;
         kwargs <- lift (py_kwargs lib params);;
         result <-
           lib_call (CExecuteTool a' tool_name kwargs)
             (execute_tool_entry lib a' tool_name kwargs);;
         ret (success_response result))
      (fun e =>
         ret (error_response
                (lit "Failed to execute tool " ++ py_str rt tool_name
                 ++ lit ": " ++ exn_str e)))
      st.
Proof.
  intros Hlib Hagent. unfold execute_tool. rewrite Hlib.
  rewrite bind_get_agent, (is_None_false _ Hagent). reflexivity.
Qed.

(** X17.  Without the library, or with no agent initialized,
    [execute_tool] answers success with the demo text naming the tool (as
    [str] prints it, so [None] for a missing name) and echoing the
    parameters as JSON; nothing is looked up or called and the state is as
    before. *)
Theorem execute_tool_demo (tool_name params : json) (st : state) :
  AGNO_AVAILABLE rt = false \/ agent st = VNone ->
  execute_tool rt tool_name params st
  = (Ok (VDict
           [(lit "success", VBool true);
            (lit "data",
             VStr (lit "Demo tool execution for: " ++ py_str rt tool_name
                   ++ [newline] ++ lit "Parameters: " ++ json_dumps params
                   ++ [newline; newline]
                   ++ lit "This is a demo response because the agno library is not available."))]),
     st).
Proof.
  intros Hdemo. unfold execute_tool.
  destruct (agno rt) as [lib|] eqn:Hlib; [|reflexivity].
  destruct Hdemo as [Hav|Hnone].
  - apply AGNO_AVAILABLE_false in Hav. congruence.
  - rewrite bind_get_agent, Hnone. reflexivity.
Qed.

(** X18.  With the library and an agent, for a registered tool and
    parameters that are a dict, the tool's result is the response's data,
    untouched; the entry point is called once, with the name and the
    parameters as keyword arguments. *)
Theorem execute_tool_passes_result
    (lib : AgnoLib) (tool_name : json) (d : list (pystr * json))
    (result : value) (st : state) :
  agno rt = Some lib ->
  agent st <> VNone ->
  tools_contains lib (agent st) tool_name = Ok true ->
  execute_tool_entry lib (agent st) tool_name d = Ok result ->
  execute_tool rt tool_name (JDict d) st
  = (Ok (VDict [(lit "success", VBool true); (lit "data", result)]),
     after_call st (CExecuteTool (agent st) tool_name d)).
Proof.
  intros Hlib Hagent Hin Hrun.
  rewrite (execute_tool_with_agent lib _ _ st Hlib Hagent).
  unfold try_except, bind, lift, lib_call, get_agent, ret.
  rewrite Hin. cbn [negb py_kwargs]. rewrite Hrun. reflexivity.
Qed.

(** X19.  When the tool raises, the answer is the failure
    [Failed to execute tool <toolName>: <message>]; the call is on
    record. *)
Theorem execute_tool_entry_raises
    (lib : AgnoLib) (tool_name : json) (d : list (pystr * json))
    (e : exn) (st : state) :
  agno rt = Some lib ->
  agent st <> VNone ->
  tools_contains lib (agent st) tool_name = Ok true ->
  execute_tool_entry lib (agent st) tool_name d = Raise e ->
  execute_tool rt tool_name (JDict d) st
  = (Ok (VDict [(lit "success", VBool false);
                (lit "error",
                 VStr (lit "Failed to execute tool " ++ py_str rt tool_name
                       ++ lit ": " ++ exn_str e))]),
     after_call st (CExecuteTool (agent st) tool_name d)).
Proof.
  intros Hlib Hagent Hin Hrun.
  rewrite (execute_tool_with_agent lib _ _ st Hlib Hagent).
  unfold try_except, bind, lift, lib_call, get_agent, ret.
  rewrite Hin. cbn [negb py_kwargs]. rewrite Hrun. reflexivity.
Qed.


(** X21.  [execute_tool] never raises, with or without the library, and
    it never writes the handle: it always returns one of the response
    shapes. *)
Theorem execute_tool_never_raises (tool_name params : json) (st : state) :
  exists (r : value) (st' : state),
    execute_tool rt tool_name params st = (Ok r, st')
    /\ is_response r
    /\ agent st' = agent st.
Proof.
  pose proof (execute_tool_keeps_agent rt tool_name params st) as Hkeep.
  destruct (execute_tool rt tool_name params st) as [[r|e] st'] eqn:Hrun.
  - exists r, st'. split; [reflexivity|]. split; [|exact Hkeep].
    eapply execute_tool_returns_response. eassumption.
  - exfalso. unfold execute_tool in Hrun.
    destruct (agno rt) as [lib|]; [|discriminate].
    rewrite bind_get_agent in Hrun.
    destruct (is_None (agent st)); [discriminate|].
    unfold try_except in Hrun.
    match type of Hrun with
    | (let (_, _) := ?b st in _) = _ => destruct (b st) as [[?|?] ?]
    end; discriminate.
Qed.

End MoreTools.

(* ------------------------------------------------------------------ *)
(** ** Beyond the claims: the dispatcher and the top level *)

Section MoreDispatch.

Variable rt : Runtime.

Lemma handle_request_returns_response (request : json) (st st' : state) (r : value) :
  handle_request rt request st = (Ok r, st') -> is_response r.
Proof.
  intros H. destruct request as [| | | | | |d]; try discriminate H.
  destruct (handle_request_object rt d st) as (body & Hbody & Heq).
  rewrite Heq in H. apply try_except_Ok_inv in H.
  destruct H as [H | (e & st1 & _ & H)].
  - eapply Hbody; eassumption.
  - apply ret_Ok_inv in H. subst. auto with bridge.
Qed.

(** X22.  A [data] field that is present but is not an object is not
    replaced by the default: for [generate_completion] and [execute_tool]
    the answer is [Error processing <action>: '<type>' object has no
    attribute 'get'], with a traceback, and the state is as before. *)
Theorem handle_request_non_object_data
    (d : list (pystr * json)) (action : string) (data : json) (st : state) :
  dict_lookup (lit "action") d = Some (JStr (lit action)) ->
  action = "generate_completion"%string \/ action = "execute_tool"%string ->
  dict_lookup (lit "data") d = Some data ->
  (forall c, data <> JDict c) ->
  handle_request rt (JDict d) st
  = (Ok (VDict
           [(lit "success", VBool false);
            (lit "error",
             VStr (lit "Error processing " ++ lit action ++ lit ": '"
                   ++ type_name data ++ lit "' object has no attribute 'get'"));
            (lit "traceback",
             VStr (format_exc rt
                     (Exn AttributeError
                        (lit "'" ++ type_name data
                         ++ lit "' object has no attribute 'get'"))))]),
     st).
Proof.
  intros Hact Hwhich Hdata Hnd.
  unfold handle_request. rewrite !py_get_dict, Hact, Hdata.
  unfold bind at 1 2. unfold lift at 1 2. cbv beta iota.
  unfold try_except.
  destruct Hwhich as [-> | ->]; cbn [eq_str];
    repeat match goal with
           | |- context [pystr_eqb ?a ?b] =>
               let v := eval vm_compute in (pystr_eqb a b) in
               change (pystr_eqb a b) with v
           end;
    cbv iota; unfold bind, lift;
    rewrite (py_get_non_dict _ _ _ Hnd); reflexivity.
Qed.

(** X23.  A request without a [data] field runs on the defaults: without
    the library, [generate_completion] answers the demo text for the empty
    message list and [execute_tool] the demo text for the tool [None] with
    parameters [{}]. *)
Theorem handle_request_missing_data (d : list (pystr * json)) (st : state) :
  AGNO_AVAILABLE rt = false ->
  dict_lookup (lit "data") d = None ->
  (dict_lookup (lit "action") d = Some (JStr (lit "generate_completion")) ->
   handle_request rt (JDict d) st
   = (Ok (VDict [(lit "success", VBool true);
                 (lit "data", VStr (demo_completion_text []))]), st))
  /\ (dict_lookup (lit "action") d = Some (JStr (lit "execute_tool")) ->
      handle_request rt (JDict d) st
      = (Ok (VDict
               [(lit "success", VBool true);
                (lit "data",
                 VStr (lit "Demo tool execution for: None" ++ [newline]
                       ++ lit "Parameters: {}" ++ [newline; newline]
                       ++ lit "This is a demo response because the agno library is not available."))]),
         st)).
Proof.
  intros Hav Hdata. apply AGNO_AVAILABLE_false in Hav.
  split; intros Hact; unfold handle_request;
    rewrite !py_get_dict, Hact, Hdata;
    unfold generate_completion, execute_tool; rewrite Hav; reflexivity.
Qed.

(** X24.  What a handler raises, the dispatcher answers: when
    [generate_completion] raises on the request's messages and options,
    the response is [Error processing generate_completion: <message>]
    with the traceback. *)
Theorem handle_request_reports_raise
    (d data : list (pystr * json)) (e : exn) (st st' : state) :
  dict_lookup (lit "action") d = Some (JStr (lit "generate_completion")) ->
  dict_lookup (lit "data") d = Some (JDict data) ->
  generate_completion rt (config_field data "messages" (JList []))
    (config_field data "options" (JDict [])) st = (Raise e, st') ->
  handle_request rt (JDict d) st
  = (Ok (VDict
           [(lit "success", VBool false);
            (lit "error",
             VStr (lit "Error processing generate_completion: " ++ exn_str e));
            (lit "traceback", VStr (format_exc rt e))]),
     st').
Proof.
  intros Hact Hdata Hrun.
  unfold handle_request. rewrite !py_get_dict, Hact, Hdata.
  unfold bind at 1 2. unfold lift at 1 2. cbv beta iota.
  unfold try_except. cbn [eq_str].
  repeat match goal with
         | |- context [pystr_eqb ?a ?b] =>
             let v := eval vm_compute in (pystr_eqb a b) in
             change (pystr_eqb a b) with v
         end.
  cbv iota. unfold bind, lift. rewrite !py_get_dict.
  unfold config_field in Hrun. rewrite Hrun. reflexivity.
Qed.

End MoreDispatch.

Section MoreMain.

Variable rt : Runtime.

Lemma dumps_value_Ok_inv (v : value) (out : pystr) :
  dumps_value rt v = Ok out -> exists j, to_json v = Some j /\ out = json_dumps j.
Proof.
  unfold dumps_value. destruct (to_json v) as [j|]; [|discriminate].
  intros H. inversion H. exists j. split; reflexivity.
Qed.

Lemma to_json_response (r : value) (j : json) :
  is_response r -> to_json r = Some j ->
  exists fields b, j = JDict fields /\ dict_lookup (lit "success") fields = Some (JBool b).
Proof.
  intros Hr Hj. destruct Hr as [data|error|error traceback]; simpl in Hj.
  - destruct (to_json data) as [jd|]; [|discriminate].
    inversion Hj. eexists _, _. split; reflexivity.
  - inversion Hj. eexists _, _. split; reflexivity.
  - inversion Hj. eexists _, _. split; reflexivity.
Qed.

(** X25.  Whatever standard input holds and whatever the library does,
    [main] does not raise and writes exactly one line: a JSON object with
    a boolean [success] field. *)
Theorem main_always_one_response (stdin : result pystr) (st : state) :
  exists (fields : list (pystr * json)) (b : bool) (st' : state),
    main rt stdin st = (Ok (print (json_dumps (JDict fields))), st')
    /\ dict_lookup (lit "success") fields = Some (JBool b).
Proof.
  unfold main, try_except.
  match goal with
  | |- context [let (_, _) := ?body st in _] =>
      destruct (body st) as [[out|e] st1] eqn:Hrun
  end.
  - apply bind_Ok_inv in Hrun. destruct Hrun as (text & s1 & _ & Hrun).
    apply bind_Ok_inv in Hrun. destruct Hrun as (request & s2 & _ & Hrun).
    apply bind_Ok_inv in Hrun. destruct Hrun as (response & s3 & Hresp & Hrun).
    apply bind_Ok_inv in Hrun. destruct Hrun as (text' & s4 & Hdump & Hrun).
    apply ret_Ok_inv in Hrun. subst out.
    unfold lift in Hdump. inversion Hdump as [[Hd Hs]]. clear Hdump.
    apply dumps_value_Ok_inv in Hd. destruct Hd as (j & Hj & ->).
    apply handle_request_returns_response in Hresp.
    destruct (to_json_response _ _ Hresp Hj) as (fields & b & -> & Hb).
    exists fields, b, st1. split; [reflexivity|exact Hb].
  - destruct (is_JSONDecodeError e);
      eexists _, false, st1; split; reflexivity.
Qed.

(** X26.  A response that carries a library object cannot be written:
    when the handler answered success with such an object as data (a
    tool's result, a completion's content), [main] writes
    [Unexpected error: Object of type <class> is not JSON serializable]
    instead, though what the handler did to the state stays done. *)
Theorem main_unserializable_response
    (text : pystr) (request : json) (o : objref) (st st' : state) :
  json_loads rt text = Ok request ->
  handle_request rt request st
  = (Ok (VDict [(lit "success", VBool true); (lit "data", VObj o)]), st') ->
  main rt (Ok text) st
  = (Ok (print (json_dumps
                  (JDict [(lit "success", JBool false);
                          (lit "error",
                           JStr (lit "Unexpected error: Object of type "
                                 ++ obj_type_name rt o
                                 ++ lit " is not JSON serializable"))]))),
     st').
Proof.
  intros Hload Hrun. unfold main, try_except, bind, lift.
  rewrite Hload, Hrun. reflexivity.
Qed.

(** X27.  A failure before the dispatch that is not a [JSONDecodeError]
    (reading standard input raises, or the parser raises something else)
    is answered [Unexpected error: <message>]; nothing is dispatched. *)
Theorem main_failure_before_dispatch
    (stdin : result pystr) (e : exn) (st : state) :
  stdin = Raise e \/ (exists text, stdin = Ok text /\ json_loads rt text = Raise e) ->
  exn_kind e <> JSONDecodeError ->
  main rt stdin st
  = (Ok (print (json_dumps
                  (JDict [(lit "success", JBool false);
                          (lit "error",
                           JStr (lit "Unexpected error: " ++ exn_str e))]))),
     st).
Proof.
  intros Hfail Hkind.
  assert (Hnot : is_JSONDecodeError e = false).
  { unfold is_JSONDecodeError. destruct (exn_kind e); congruence. }
  unfold main, try_except, bind, lift.
  destruct Hfail as [-> | (text & -> & Hload)].
  - rewrite Hnot. reflexivity.
  - rewrite Hload, Hnot. reflexivity.
Qed.

(** X28.  End to end, a document that decodes to an object whose action
    is [ping] makes [main] write the line
    [{"success": true, "data": true}]. *)
Theorem main_ping (text : pystr) (d : list (pystr * json)) (st : state) :
  json_loads rt text = Ok (JDict d) ->
  dict_lookup (lit "action") d = Some (JStr (lit "ping")) ->
  main rt (Ok text) st
  = (Ok (lit "{" ++ [dquote] ++ lit "success" ++ [dquote] ++ lit ": true, "
         ++ [dquote] ++ lit "data" ++ [dquote] ++ lit ": true}" ++ [newline]),
     st).
Proof.
  intros Hload Hact.
  assert (Hrun : handle_request rt (JDict d) st
                 = (Ok (success_response (VBool true)), st)).
  { unfold handle_request. rewrite !py_get_dict, Hact. reflexivity. }
  unfold main, try_except.
  rewrite (bind_Ok (lift (Ok text)) _ st st text) by reflexivity.
  rewrite (bind_Ok (lift (json_loads rt text)) _ st st (JDict d))
    by (unfold lift; rewrite Hload; reflexivity).
  rewrite (bind_Ok _ _ _ _ _ Hrun). reflexivity.
Qed.

End MoreMain.

(* ------------------------------------------------------------------ *)
(** ** The further properties at work on sample inputs *)

Lemma initialize_agent_replaces_handle_witness :
  initialize_agent agno_runtime (JDict [(lit "agentName", JStr (lit "Nexus"))])
    initial_state
  = (Ok (VDict
           [(lit "success", VBool true);
            (lit "data",
             VDict [(lit "name", VStr (lit "name"));
                    (lit "description", VStr (lit "description"));
                    (lit "model", VStr (lit "model"));
                    (lit "demo", VBool false)])]),
     State (VObj 1%N)
       [CAgent (JStr (lit "Nexus"))
          (JStr (lit "An advanced cognitive agent architecture"))
          (JStr (lit "gpt-4"))]).
Proof.
  apply (initialize_agent_replaces_handle agno_runtime sample_agno
           [(lit "agentName", JStr (lit "Nexus"))] (VObj 1%N)
           (VStr (lit "name")) (VStr (lit "description")) (VStr (lit "model"))
           initial_state);
    reflexivity.
Defined.

Lemma initialize_agent_failure_after_assignment_witness :
  initialize_agent mute_runtime (JDict []) initial_state
  = (Ok (VDict [(lit "success", VBool false);
                (lit "error",
                 VStr (lit "Failed to initialize agent: 'Agent' object has no attribute 'name'"))]),
     State (VObj 8%N)
       [CAgent (JStr (lit "Agent Nexus"))
          (JStr (lit "An advanced cognitive agent architecture"))
          (JStr (lit "gpt-4"))]).
Proof.
  apply (initialize_agent_failure_after_assignment mute_runtime mute_agno []
           (VObj 8%N)
           (Exn AttributeError (lit "'Agent' object has no attribute 'name'"))
           initial_state);
    reflexivity.
Defined.

Lemma initialize_agent_demo_echo_witness :
  initialize_agent demo_runtime
    (JDict [(lit "agentName", JStr (lit "Nexus")); (lit "modelName", JInt 4)])
    agent_state
  = (Ok (VDict
           [(lit "success", VBool true);
            (lit "data",
             VDict [(lit "name", VStr (lit "Nexus"));
                    (lit "description", VStr (lit "Demo Agent (agno not available)"));
                    (lit "model", VInt 4);
                    (lit "demo", VBool true)])]),
     agent_state).
Proof.
  apply (initialize_agent_demo_echo demo_runtime
           [(lit "agentName", JStr (lit "Nexus")); (lit "modelName", JInt 4)]
           agent_state).
  reflexivity.
Defined.


Lemma initialize_agent_demo_non_dict_witness :
  handle_request demo_runtime (JDict (request_of "initialize_agent" (JList [])))
    initial_state
  = (Ok (VDict
           [(lit "success", VBool false);
            (lit "error",
             VStr (lit "Error processing initialize_agent: 'list' object has no attribute 'get'"));
            (lit "traceback",
             VStr (lit "Traceback (most recent call last): 'list' object has no attribute 'get'"))]),
     initial_state).
Proof.
  apply (initialize_agent_demo_non_dict demo_runtime
           (request_of "initialize_agent" (JList [])) (JList []) initial_state);
    [reflexivity | reflexivity | reflexivity | discriminate].
Defined.

Lemma initialize_agent_twice_witness :
  exists r1 r2,
    (r1 <- initialize_agent object_runtime (JDict [(lit "agentName", JStr (lit "ab"))]);;
     r2 <- initialize_agent object_runtime (JDict [(lit "agentName", JStr (lit "abc"))]);;
     ret (r1, r2)) initial_state
    = (Ok (r1, r2),
       State (VObj 3%N)
         [CAgent (JStr (lit "ab"))
            (JStr (lit "An advanced cognitive agent architecture"))
            (JStr (lit "gpt-4"));
          CAgent (JStr (lit "abc"))
            (JStr (lit "An advanced cognitive agent architecture"))
            (JStr (lit "gpt-4"))]).
Proof.
  apply (initialize_agent_twice object_runtime object_agno
           [(lit "agentName", JStr (lit "ab"))]
           [(lit "agentName", JStr (lit "abc"))]
           (VObj 2%N) (VObj 3%N) initial_state);
    reflexivity.
Defined.

Lemma handle_request_keeps_agent_witness :
  agent (snd (handle_request agno_runtime
                (JDict (request_of "execute_tool"
                          (JDict [(lit "toolName", JStr (lit "search"))])))
                agent_state))
  = VObj 1%N.
Proof.
  apply (handle_request_keeps_agent agno_runtime
           (JDict (request_of "execute_tool"
                     (JDict [(lit "toolName", JStr (lit "search"))])))
           agent_state).
  intros H. vm_compute in H. discriminate H.
Defined.

Lemma handle_request_demo_keeps_state_witness :
  snd (handle_request demo_runtime
         (JDict (request_of "generate_completion"
                   (JDict [(lit "messages", JList sample_messages)])))
         agent_state)
  = agent_state.
Proof.
  apply (handle_request_demo_keeps_state demo_runtime
           (JDict (request_of "generate_completion"
                     (JDict [(lit "messages", JList sample_messages)])))
           agent_state).
  reflexivity.
Defined.

Lemma generate_completion_success_witness :
  generate_completion agno_runtime (JList [message "user" "hello"])
    (JDict [(lit "maxTokens", JInt 5)]) agent_state
  = (Ok (VDict [(lit "success", VBool true); (lit "data", VStr (lit "content"))]),
     State (VObj 1%N)
       [CUserMessage (JStr (lit "hello"));
        CGenerate (VObj 1%N) [VObj 3%N] (JFloat (lit "0.7")) (JInt 5) JNone]).
Proof.
  apply (generate_completion_success agno_runtime sample_agno
           [message "user" "hello"] [(lit "maxTokens", JInt 5)]
           [VObj 3%N] (VObj 6%N) (VStr (lit "content")) agent_state
           (State (VObj 1%N) [CUserMessage (JStr (lit "hello"))]));
    [reflexivity | discriminate | reflexivity | reflexivity | reflexivity].
Defined.

Lemma generate_completion_generate_raises_witness :
  generate_completion mute_runtime (JList [message "user" "hello"]) (JDict [])
    agent_state
  = (Ok (VDict [(lit "success", VBool false);
                (lit "error",
                 VStr (lit "Failed to generate completion: model unavailable"))]),
     State (VObj 1%N)
       [CUserMessage (JStr (lit "hello"));
        CGenerate (VObj 1%N) [VObj 3%N] (JFloat (lit "0.7")) (JInt 1000) JNone]).
Proof.
  apply (generate_completion_generate_raises mute_runtime mute_agno
           [message "user" "hello"] [] [VObj 3%N]
           (Exn OtherException (lit "model unavailable")) agent_state
           (State (VObj 1%N) [CUserMessage (JStr (lit "hello"))]));
    [reflexivity | discriminate | reflexivity | reflexivity].
Defined.

Lemma generate_completion_never_raises_witness :
  exists (r : value) (st' : state),
    generate_completion agno_runtime (JInt 3) JNone agent_state = (Ok r, st')
    /\ ((exists content,
           r = VDict [(lit "success", VBool true); (lit "data", content)])
        \/ (exists e,
              r = VDict [(lit "success", VBool false);
                         (lit "error",
                          VStr (lit "Failed to generate completion: "
                                ++ exn_str e))])).
Proof.
  apply (generate_completion_never_raises agno_runtime sample_agno (JInt 3) JNone
           agent_state);
    [reflexivity | discriminate].
Defined.

Lemma generate_completion_missing_content_witness :
  generate_completion agno_runtime
    (JList ([message "user" "hello"]
            ++ JDict [(lit "role", JStr (lit "critic"))] :: [message "user" "bye"]))
    (JDict []) agent_state
  = (Ok (VDict [(lit "success", VBool false);
                (lit "error",
                 VStr (lit "Failed to generate completion: 'content'"))]),
     State (VObj 1%N) [CUserMessage (JStr (lit "hello"))]).
Proof.
  apply (generate_completion_missing_content agno_runtime sample_agno
           [message "user" "hello"] [message "user" "bye"]
           [(lit "role", JStr (lit "critic"))] (JStr (lit "critic")) (JDict [])
           [VObj 3%N] agent_state
           (State (VObj 1%N) [CUserMessage (JStr (lit "hello"))]));
    [reflexivity | discriminate | reflexivity | reflexivity | reflexivity].
Defined.

Lemma system_message_is_other : Forall is_other_message [message "system" "be brief"].
Proof.
  constructor; [|constructor].
  eexists _, _, _. split; [reflexivity|]. split; [reflexivity|].
  split; [|reflexivity]. intros H. vm_compute in H. discriminate H.
Defined.


Lemma generate_completion_demo_raises_witness :
  generate_completion demo_runtime
    (JList ([message "system" "be brief"]
            ++ JDict [(lit "content", JStr (lit "hello"))] :: []))
    (JDict []) initial_state
  = (Raise (Exn KeyError (lit "'role'")), initial_state).
Proof.
  apply (generate_completion_demo_raises demo_runtime
           [message "system" "be brief"] []
           [(lit "content", JStr (lit "hello"))] (JDict []) initial_state);
    [left; reflexivity | exact system_message_is_other | reflexivity].
Defined.

Lemma convert_messages_count_witness :
  length [VObj 3%N; VObj 4%N]
  = length (@nil value)
    + length (filter (has_known_role agno_runtime)
                [message "user" "hello"; message "critic" "too long";
                 message "assistant" "hi"]).
Proof.
  apply (convert_messages_count agno_runtime sample_agno
           [message "user" "hello"; message "critic" "too long";
            message "assistant" "hi"]
           [] [VObj 3%N; VObj 4%N] agent_state
           (State (VObj 1%N)
              [CUserMessage (JStr (lit "hello"));
               CAssistantMessage (JStr (lit "hi"))])).
  reflexivity.
Defined.

Lemma convert_message_function_or_tool_witness :
  convert_message agno_runtime sample_agno (message "tool" "42") agent_state
  = (Ok [VObj 5%N],
     State (VObj 1%N) [CFunctionMessage (JStr (lit "42")) (JStr (lit "function"))]).
Proof.
  apply (convert_message_function_or_tool agno_runtime sample_agno
           [(lit "role", JStr (lit "tool")); (lit "content", JStr (lit "42"))]
           (JStr (lit "tool")) (JStr (lit "42")) agent_state);
    [reflexivity | right; reflexivity | reflexivity].
Defined.

Lemma execute_tool_demo_witness :
  execute_tool demo_runtime (JStr (lit "search"))
    (JDict [(lit "q", JStr (lit "x"))]) initial_state
  = (Ok (VDict
           [(lit "success", VBool true);
            (lit "data",
             VStr (lit "Demo tool execution for: search" ++ [newline]
                   ++ lit "Parameters: {" ++ quoted "q" ++ lit ": " ++ quoted "x"
                   ++ lit "}" ++ [newline; newline]
                   ++ lit "This is a demo response because the agno library is not available."))]),
     initial_state).
Proof.
  apply (execute_tool_demo demo_runtime (JStr (lit "search"))
           (JDict [(lit "q", JStr (lit "x"))]) initial_state).
  left. reflexivity.
Defined.

Lemma execute_tool_passes_result_witness :
  execute_tool agno_runtime (JStr (lit "search"))
    (JDict [(lit "q", JStr (lit "x"))]) agent_state
  = (Ok (VDict [(lit "success", VBool true); (lit "data", VStr (lit "done"))]),
     State (VObj 1%N)
       [CExecuteTool (VObj 1%N) (JStr (lit "search")) [(lit "q", JStr (lit "x"))]]).
Proof.
  apply (execute_tool_passes_result agno_runtime sample_agno (JStr (lit "search"))
           [(lit "q", JStr (lit "x"))] (VStr (lit "done")) agent_state);
    [reflexivity | discriminate | reflexivity | reflexivity].
Defined.

Lemma execute_tool_entry_raises_witness :
  execute_tool mute_runtime (JStr (lit "search")) (JDict []) agent_state
  = (Ok (VDict [(lit "success", VBool false);
                (lit "error",
                 VStr (lit "Failed to execute tool search: tool crashed"))]),
     State (VObj 1%N) [CExecuteTool (VObj 1%N) (JStr (lit "search")) []]).
Proof.
  apply (execute_tool_entry_raises mute_runtime mute_agno (JStr (lit "search")) []
           (Exn OtherException (lit "tool crashed")) agent_state);
    [reflexivity | discriminate | reflexivity | reflexivity].
Defined.


Lemma handle_request_non_object_data_witness :
  handle_request agno_runtime (JDict (request_of "execute_tool" JNone)) agent_state
  = (Ok (VDict
           [(lit "success", VBool false);
            (lit "error",
             VStr (lit "Error processing execute_tool: 'NoneType' object has no attribute 'get'"));
            (lit "traceback",
             VStr (lit "Traceback (most recent call last): 'NoneType' object has no attribute 'get'"))]),
     agent_state).
Proof.
  apply (handle_request_non_object_data agno_runtime
           (request_of "execute_tool" JNone) "execute_tool" JNone agent_state);
    [reflexivity | right; reflexivity | reflexivity | discriminate].
Defined.

Lemma handle_request_missing_data_witness :
  handle_request demo_runtime (JDict [(lit "action", JStr (lit "execute_tool"))])
    initial_state
  = (Ok (VDict
           [(lit "success", VBool true);
            (lit "data",
             VStr (lit "Demo tool execution for: None" ++ [newline]
                   ++ lit "Parameters: {}" ++ [newline; newline]
                   ++ lit "This is a demo response because the agno library is not available."))]),
     initial_state).
Proof.
  apply (proj2 (handle_request_missing_data demo_runtime
                  [(lit "action", JStr (lit "execute_tool"))] initial_state
                  eq_refl eq_refl)).
  reflexivity.
Defined.

Lemma handle_request_reports_raise_witness :
  handle_request demo_runtime
    (JDict (request_of "generate_completion"
              (JDict [(lit "messages", JList [JDict []])])))
    initial_state
  = (Ok (VDict
           [(lit "success", VBool false);
            (lit "error",
             VStr (lit "Error processing generate_completion: 'role'"));
            (lit "traceback",
             VStr (lit "Traceback (most recent call last): 'role'"))]),
     initial_state).
Proof.
  apply (handle_request_reports_raise demo_runtime
           (request_of "generate_completion"
              (JDict [(lit "messages", JList [JDict []])]))
           [(lit "messages", JList [JDict []])]
           (Exn KeyError (lit "'role'")) initial_state initial_state);
    reflexivity.
Defined.

Lemma main_unserializable_response_witness :
  main (table_runtime sample_documents (Some object_agno)) (Ok tool_text) agent_state
  = (Ok (lit "{" ++ quoted "success" ++ lit ": false, " ++ quoted "error"
         ++ lit ": "
         ++ quoted "Unexpected error: Object of type Agent is not JSON serializable"
         ++ lit "}" ++ [newline]),
     State (VObj 1%N) [CExecuteTool (VObj 1%N) (JStr (lit "fetch")) []]).
Proof.
  apply (main_unserializable_response
           (table_runtime sample_documents (Some object_agno))
           tool_text (JDict tool_request) 7%N agent_state
           (State (VObj 1%N) [CExecuteTool (VObj 1%N) (JStr (lit "fetch")) []]));
    reflexivity.
Defined.

Lemma main_failure_before_dispatch_witness :
  main demo_runtime
    (Raise (Exn OtherException (lit "'utf-8' codec can't decode byte 0xff in position 0: invalid start byte")))
    initial_state
  = (Ok (lit "{" ++ quoted "success" ++ lit ": false, " ++ quoted "error"
         ++ lit ": "
         ++ quoted "Unexpected error: 'utf-8' codec can't decode byte 0xff in position 0: invalid start byte"
         ++ lit "}" ++ [newline]),
     initial_state).
Proof.
  apply (main_failure_before_dispatch demo_runtime
           (Raise (Exn OtherException (lit "'utf-8' codec can't decode byte 0xff in position 0: invalid start byte")))
           (Exn OtherException (lit "'utf-8' codec can't decode byte 0xff in position 0: invalid start byte"))
           initial_state);
    [left; reflexivity | discriminate].
Defined.

Lemma main_ping_witness :
  main (table_runtime sample_documents None) (Ok ping_text) initial_state
  = (Ok (lit "{" ++ quoted "success" ++ lit ": true, " ++ quoted "data"
         ++ lit ": true}" ++ [newline]),
     initial_state).
Proof.
  apply (main_ping (table_runtime sample_documents None) ping_text ping_request
           initial_state);
    reflexivity.
Defined.

Lemma main_non_object_witness :
  main demo_runtime (Ok (lit "null")) initial_state
  = (Ok (lit "{" ++ quoted "success" ++ lit ": false, " ++ quoted "error"
         ++ lit ": "
         ++ quoted "Unexpected error: 'NoneType' object has no attribute 'get'"
         ++ lit "}" ++ [newline]),
     initial_state).
Proof.
  apply (main_non_object demo_runtime (lit "null") JNone initial_state);
    [reflexivity | discriminate].
Defined.
